(** * The researcher/critic refinement loop of [dual_agent_granite.py]

    A shallow embedding of the backend client ([OllamaClient.generate]),
    the role agent ([Agent.process]) and the orchestrator
    ([DualAgentCoordinator.run]), followed by the properties of the
    iteration loop: call accounting, convergence, history and the
    error-as-text behaviour of the client.

    Modelling conventions.
    - A Python [str] is a Rocq [string]; every character stands for the
      code point of the same number (0..255).  [isspace] and [lower] are
      Python's, restricted to these code points.
    - A Python [int] is a [Z]; the [float] temperature is carried as a
      rational and is never inspected by the code.
    - A [Dict[str, str]] context is a [gmap string string].
    - The HTTP backend is a deterministic oracle [requests_post] over an
      abstract [World]; it answers with a response or raises.
    - Python exceptions are values of [Exn]; a computation that may raise
      has type [M S A]: it returns [Ret a] or [Raise e] together with the
      state it leaves behind (mutations made before a raise persist).
    - [console.print] is an oracle [console_print] over what is rendered:
      it returns, or raises as rich does on markup it refuses.  What it
      shows is not modelled, nor is the [Progress] spinner, whose texts are
      fixed and hold iteration numbers only. *)

From Stdlib Require Import QArith Ascii String.
From stdpp Require Import gmap strings pretty.

Set Warnings "-register-all".
Open Scope Z_scope.

(** ** Python strings *)

Definition nl : string := String (ascii_of_N 10) "".

(** [str.isspace] on code points below 256. *)
Definition py_isspace (c : ascii) : bool :=
  let n := N_of_ascii c in
  ((9 <=? n) && (n <=? 13) || (28 <=? n) && (n <=? 32)
   || (n =? 133) || (n =? 160))%N.

(** [str.lower] on one code point below 256: A-Z and the Latin-1 capitals
    (all of U+00C0..U+00DE but the multiplication sign) move up by 32. *)
Definition py_lower_char (c : ascii) : ascii :=
  let n := N_of_ascii c in
  if ((65 <=? n) && (n <=? 90)
      || (192 <=? n) && (n <=? 222) && negb (n =? 215))%N
  then ascii_of_N (n + 32) else c.

Fixpoint lower (s : string) : string :=
  match s with
  | EmptyString => EmptyString
  | String c t => String (py_lower_char c) (lower t)
  end.

Fixpoint lstrip (s : string) : string :=
  match s with
  | EmptyString => EmptyString
  | String c t => if py_isspace c then lstrip t else s
  end.

Fixpoint rstrip (s : string) : string :=
  match s with
  | EmptyString => EmptyString
  | String c t =>
      match rstrip t with
      | EmptyString => if py_isspace c then EmptyString else String c EmptyString
      | t' => String c t'
      end
  end.

(** [s.strip()] *)
Definition strip (s : string) : string := lstrip (rstrip s).

(** [needle in haystack] *)
Fixpoint str_in (needle haystack : string) : bool :=
  String.prefix needle haystack
  || match haystack with
     | EmptyString => false
     | String _ t => str_in needle t
     end.

(** Truth value of a string: empty is false. *)
Definition str_truthy (s : string) : bool :=
  match s with EmptyString => false | _ => true end.

(** ** Exceptions and the state-and-exception monad *)

Inductive Exn : Type :=
  | TypeError (msg : string)
  | KeyError (key : string)
  | AttributeError (msg : string)
  | JSONDecodeError (msg : string)
  | RequestException (msg : string)
  | MarkupError (msg : string).

(** [str(e)]; a [KeyError] prints the repr of its key. *)
Definition exn_str (e : Exn) : string :=
  match e with
  | TypeError msg | AttributeError msg
  | JSONDecodeError msg | RequestException msg | MarkupError msg => msg
  | KeyError key => "'" +:+ key +:+ "'"
  end.

Inductive Res (A : Type) : Type :=
  | Ret (a : A)
  | Raise (e : Exn).
Arguments Ret {A} a.
Arguments Raise {A} e.

Definition M (S A : Type) : Type := S -> Res A * S.

Definition ret {S A} (a : A) : M S A := fun s => (Ret a, s).
Definition raise {S A} (e : Exn) : M S A := fun s => (Raise e, s).
Definition bind {S A B} (m : M S A) (k : A -> M S B) : M S B :=
  fun s => match m s with
           | (Ret a, s') => k a s'
           | (Raise e, s') => (Raise e, s')
           end.
Definition lift_res {S A} (r : Res A) : M S A := fun s => (r, s).

Notation "'let*' x ':=' c 'in' k" := (bind c (fun x => k))
  (at level 10, x pattern, c at level 100, k at level 200).

(** [try: body  except Exception as e: handler(e)] *)
Definition try_except {S A} (body : M S A) (handler : Exn -> A) : S -> A * S :=
  fun s => match body s with
           | (Ret a, s') => (a, s')
           | (Raise e, s') => (handler e, s')
           end.

(** ** JSON values and HTTP responses *)

Inductive json : Type :=
  | JNull
  | JBool (b : bool)
  | JInt (z : Z)
  | JFloat (q : Q)
  | JStr (s : string)
  | JArr (l : list json)
  | JObj (o : gmap string json).

Definition py_type_name (v : json) : string :=
  match v with
  | JNull => "NoneType"
  | JBool _ => "bool"
  | JInt _ => "int"
  | JFloat _ => "float"
  | JStr _ => "str"
  | JArr _ => "list"
  | JObj _ => "dict"
  end.

Definition no_attribute (v : json) (attr : string) : Exn :=
  AttributeError ("'" +:+ py_type_name v +:+ "' object has no attribute '"
                  +:+ attr +:+ "'").

(** [v.get(key, dflt)]: only a dict has the method. *)
Definition json_get (v : json) (key : string) (dflt : json) : Res json :=
  match v with
  | JObj o => Ret (default dflt (o !! key))
  | _ => Raise (no_attribute v "get")
  end.

(** [v.strip()]: only a str has the method. *)
Definition json_strip (v : json) : Res string :=
  match v with
  | JStr s => Ret (strip s)
  | _ => Raise (no_attribute v "strip")
  end.

(** What the code reads of a [requests.Response]: the status code and the
    outcome of [response.json()], which raises on a body that is not JSON. *)
Record Response : Type := {
  status_code : Z;
  response_json : Res json
}.

(** The request body built by [generate]. *)
Record Payload : Type := {
  p_model : string;
  p_prompt : string;
  p_system : string;
  p_stream : bool;
  p_temperature : Q
}.

(** ** Configuration *)

Inductive AgentRole : Type := GENERATOR | CRITIC.

Record AgentConfig : Type := {
  name : string;
  role : AgentRole;
  system_prompt : string;
  model : string;
  temperature : Q;
  max_tokens : Z
}.

Definition default_model : string := "granite3-moe:1b".
Definition default_temperature : Q := 7 # 10.

Definition mkAgentConfig (name : string) (role : AgentRole)
    (system_prompt : string) : AgentConfig :=
  {| name := name; role := role; system_prompt := system_prompt;
     model := default_model; temperature := default_temperature;
     max_tokens := 2048 |}.

Record HistoryEntry : Type := {
  entry_iteration : Z;
  entry_generator_output : string;
  entry_critic_feedback : option string
}.

Record ConversationState : Type := {
  user_query : string;
  generator_output : string;
  critic_feedback : string;
  iteration : Z;
  max_iterations : Z;
  history : list HistoryEntry;
  converged : bool
}.

Definition mkConversationState (user_query : string) (max_iterations : Z)
    : ConversationState :=
  {| user_query := user_query; generator_output := ""; critic_feedback := "";
     iteration := 0; max_iterations := max_iterations; history := [];
     converged := false |}.

Definition set_iteration (st : ConversationState) (v : Z) :=
  {| user_query := user_query st; generator_output := generator_output st;
     critic_feedback := critic_feedback st; iteration := v;
     max_iterations := max_iterations st; history := history st;
     converged := converged st |}.

Definition set_generator_output (st : ConversationState) (v : string) :=
  {| user_query := user_query st; generator_output := v;
     critic_feedback := critic_feedback st; iteration := iteration st;
     max_iterations := max_iterations st; history := history st;
     converged := converged st |}.

Definition set_critic_feedback (st : ConversationState) (v : string) :=
  {| user_query := user_query st; generator_output := generator_output st;
     critic_feedback := v; iteration := iteration st;
     max_iterations := max_iterations st; history := history st;
     converged := converged st |}.

Definition set_converged (st : ConversationState) (v : bool) :=
  {| user_query := user_query st; generator_output := generator_output st;
     critic_feedback := critic_feedback st; iteration := iteration st;
     max_iterations := max_iterations st; history := history st;
     converged := v |}.

(** [state.history.append(entry)] *)
Definition history_append (st : ConversationState) (entry : HistoryEntry) :=
  {| user_query := user_query st; generator_output := generator_output st;
     critic_feedback := critic_feedback st; iteration := iteration st;
     max_iterations := max_iterations st; history := history st ++ [entry];
     converged := converged st |}.

(** ** System prompts *)

Definition GENERATOR_SYSTEM_PROMPT : string := String.concat nl [
  "You are a Generator Agent specializing in creating comprehensive, accurate responses.";
  "";
  "Your responsibilities:";
  "- Analyze user queries carefully and provide detailed, well-structured responses";
  "- Draw upon your knowledge to give informative answers";
  "- Be clear, concise, and accurate";
  "- Structure your responses with proper formatting when appropriate";
  "- If you receive feedback, incorporate it to improve your response";
  "";
  "Focus on quality and completeness. Your response will be reviewed by a Critic Agent."
].

Definition CRITIC_SYSTEM_PROMPT : string := String.concat nl [
  "You are a Critic Agent specializing in evaluating and improving responses.";
  "";
  "Your responsibilities:";
  "- Review the Generator's response critically but constructively";
  "- Identify gaps, inaccuracies, or areas for improvement";
  "- Provide specific, actionable feedback";
  "- Suggest concrete improvements";
  "- Acknowledge what was done well";
  "- Focus on substance over style";
  "";
  "Format your feedback as:";
  "STRENGTHS: [What was done well]";
  "IMPROVEMENTS NEEDED: [Specific issues to address]";
  "SUGGESTIONS: [Concrete recommendations]";
  "";
  "Be thorough but fair. Your goal is to help improve the response, not to criticize unnecessarily."
].

(** ** Ollama client *)

Record OllamaClient : Type := {
  base_url : string;
  api_endpoint : string
}.

Definition OllamaClient_init (base_url : string) : OllamaClient :=
  {| base_url := base_url; api_endpoint := base_url +:+ "/api/generate" |}.

Definition default_client : OllamaClient :=
  OllamaClient_init "http://localhost:11434".

(** What [run] hands to [console.print]: a [Panel(content, title=...)] or
    a line of markup.  The border style of a panel, a constant, is left
    out; the symbols in the fixed title of the opening panel and in the
    convergence line are carried as the bytes the source file holds. *)
Inductive Renderable : Type :=
  | Panel (content title : string)
  | Markup (text : string).

Section Backend.

(** The text-generation backend: [requests.post(url, json=payload,
    timeout=t)] either answers or raises, and moves the world on. *)
Context {World : Type}.
Variable requests_post : string -> Payload -> Z -> M World Response.

(** [console.print(x)]: rich renders the markup of [x] or raises. *)
Variable console_print : Renderable -> Res unit.

(** [OllamaClient.generate] *)
Definition generate (self : OllamaClient) (prompt system model : string)
    (temperature : Q) (stream : bool) : World -> string * World :=
  let payload := {| p_model := model; p_prompt := prompt; p_system := system;
                    p_stream := stream; p_temperature := temperature |} in
  try_except
    (let* response := requests_post (api_endpoint self) payload 120 in
     if status_code response =? 200 then
       let* result := lift_res (response_json response) in
       let* text := lift_res (json_get result "response" (JStr "")) in
       lift_res (json_strip text)
     else
       ret ("Error: HTTP " +:+ pretty (status_code response)))
    (fun e => "Error: " +:+ exn_str e).

(** ** Agents *)

Record Agent : Type := {
  config : AgentConfig;
  client : OllamaClient;
  call_count : Z
}.

Definition Agent_init (config : AgentConfig) (client : OllamaClient) : Agent :=
  {| config := config; client := client; call_count := 0 |}.

Definition set_call_count (self : Agent) (v : Z) : Agent :=
  {| config := config self; client := client self; call_count := v |}.

(** [context[key]]: a [TypeError] on [None], a [KeyError] on a missing key. *)
Definition subscript (context : option (gmap string string)) (key : string)
    : Res string :=
  match context with
  | None => Raise (TypeError "'NoneType' object is not subscriptable")
  | Some d => match d !! key with
              | Some v => Ret v
              | None => Raise (KeyError key)
              end
  end.

(** [context and context.get('feedback')] as a condition: false on [None],
    on the empty dict, on a missing key and on the empty string. *)
Definition has_feedback (context : option (gmap string string)) : bool :=
  match context with
  | None => false
  | Some d => match d !! "feedback" with
              | Some v => str_truthy v
              | None => false
              end
  end.

Definition res_bind {A B} (r : Res A) (k : A -> Res B) : Res B :=
  match r with
  | Ret a => k a
  | Raise e => Raise e
  end.

(** The three f-strings of [Agent.process]. *)
Definition first_call_prompt (input_text : string) : string :=
  "User Query: " +:+ input_text +:+ nl +:+ nl
  +:+ "Provide a comprehensive response:".

Definition improvement_prompt (query previous feedback : string) : string :=
  "Original Query: " +:+ query +:+ nl +:+ nl
  +:+ "Previous Response:" +:+ nl +:+ previous +:+ nl +:+ nl
  +:+ "Feedback from Critic:" +:+ nl +:+ feedback +:+ nl +:+ nl
  +:+ "Please provide an improved response that addresses the feedback while maintaining quality.".

Definition critic_prompt (query input_text : string) : string :=
  "Original Query: " +:+ query +:+ nl +:+ nl
  +:+ "Response to Evaluate:" +:+ nl +:+ input_text +:+ nl +:+ nl
  +:+ "Provide constructive feedback following the specified format.".

(** The prompt construction of [Agent.process], by role. *)
Definition build_prompt (r : AgentRole) (input_text : string)
    (context : option (gmap string string)) : Res string :=
  match r with
  | GENERATOR =>
      if has_feedback context then
        res_bind (subscript context "query") (fun query =>
        res_bind (subscript context "previous_response") (fun previous =>
        res_bind (subscript context "feedback") (fun feedback =>
        Ret (improvement_prompt query previous feedback))))
      else
        Ret (first_call_prompt input_text)
  | CRITIC =>
      res_bind (subscript context "query") (fun query =>
      Ret (critic_prompt query input_text))
  end.

(** [Agent.process]: the counter moves first, so it also counts a call
    that raises while building its prompt. *)
Definition process (input_text : string)
    (context : option (gmap string string)) : M (Agent * World) string :=
  fun '(self, w) =>
    let self := set_call_count self (call_count self + 1) in
    match build_prompt (role (config self)) input_text context with
    | Raise e => (Raise e, (self, w))
    | Ret prompt =>
        let '(response, w') :=
          generate (client self) prompt (system_prompt (config self))
                   (model (config self)) (temperature (config self)) false w in
        (Ret response, (self, w'))
    end.

(** ** The coordinator *)

Record DualAgentCoordinator : Type := {
  coordinator_client : OllamaClient;
  generator : Agent;
  critic : Agent
}.

Definition DualAgentCoordinator_init (client : OllamaClient)
    : DualAgentCoordinator :=
  {| coordinator_client := client;
     generator :=
       Agent_init (mkAgentConfig "Generator" GENERATOR GENERATOR_SYSTEM_PROMPT)
                  client;
     critic :=
       Agent_init (mkAgentConfig "Critic" CRITIC CRITIC_SYSTEM_PROMPT) client |}.

(** [self.generator.m(...)] and [self.critic.m(...)] *)
Definition on_generator {A} (m : M (Agent * World) A)
    : M (DualAgentCoordinator * World) A :=
  fun '(self, w) =>
    let '(r, (g, w')) := m (generator self, w) in
    (r, ({| coordinator_client := coordinator_client self;
            generator := g; critic := critic self |}, w')).

Definition on_critic {A} (m : M (Agent * World) A)
    : M (DualAgentCoordinator * World) A :=
  fun '(self, w) =>
    let '(r, (c, w')) := m (critic self, w) in
    (r, ({| coordinator_client := coordinator_client self;
            generator := generator self; critic := c |}, w')).

Record RunResult : Type := {
  res_final_response : string;
  res_iterations : Z;
  res_converged : bool;
  res_history : list HistoryEntry;
  res_generator_calls : Z;
  res_critic_calls : Z
}.

Inductive Flow : Type := Continue | Break.

Definition CONVERGENCE_MARKER : string := "no significant improvements needed".

(** The test of line 347. *)
Definition convergence_detected (feedback : string) : bool :=
  str_in CONVERGENCE_MARKER (lower feedback).

(** The context of the generator call of iteration [iteration] (0-based):
    none on the first, the previous answer and feedback afterwards. *)
Definition generator_context (user_query : string) (iteration : Z)
    (state : ConversationState) : option (gmap string string) :=
  if iteration =? 0 then None
  else Some (<["query" := user_query]>
            (<["previous_response" := generator_output state]>
            (<["feedback" := critic_feedback state]> ∅))).

Definition critic_context (user_query : string) : gmap string string :=
  <["query" := user_query]> ∅.

(** Generator phase. *)
Definition generator_phase (user_query : string) (iteration : Z)
    (state : ConversationState) : M (DualAgentCoordinator * World) ConversationState :=
  let* out :=
    on_generator (process user_query (generator_context user_query iteration state)) in
  ret (set_generator_output state out).

(** What [if verbose: console.print(x)] does: nothing, or what the console
    does with [x]. *)
Definition rendering (verbose : bool) (x : Renderable) : Res unit :=
  if verbose then console_print x else Ret tt.

Definition verbose_print {S : Type} (verbose : bool) (x : Renderable)
    : M S unit :=
  lift_res (rendering verbose x).

(** The panels and the line [run] prints when verbose. *)
Definition opening_panel (user_query : string) (max_iterations : Z)
    : Renderable :=
  Panel ("[bold cyan]Starting Dual-Agent Processing[/bold cyan]" +:+ nl
         +:+ "Query: " +:+ user_query +:+ nl
         +:+ "Max Iterations: " +:+ pretty max_iterations)
        "ðŸ¤– Dual-Agent System".

Definition generator_panel (state : ConversationState) : Renderable :=
  Panel (generator_output state)
        ("[green]Generator Response (Iteration "
         +:+ pretty (iteration state) +:+ ")").

Definition critic_panel (state : ConversationState) : Renderable :=
  Panel (critic_feedback state)
        ("[yellow]Critic Feedback (Iteration "
         +:+ pretty (iteration state) +:+ ")").

Definition converged_line : Renderable :=
  Markup "[green]âœ“ Converged: Response quality satisfactory[/green]".

(** Critic phase (skipped on the last iteration), with the convergence
    check that leaves the loop. *)
Definition critic_phase (user_query : string) (max_iterations : Z)
    (verbose : bool) (iteration : Z) (state : ConversationState)
    : M (DualAgentCoordinator * World) (Flow * ConversationState) :=
  if iteration <? max_iterations - 1 then
    let* fb :=
      on_critic (process (generator_output state)
                         (Some (critic_context user_query))) in
    let state := set_critic_feedback state fb in
    let* _ := verbose_print verbose (critic_panel state) in
    if convergence_detected (critic_feedback state) then
      let state := set_converged state true in
      let* _ := verbose_print verbose converged_line in
      ret (Break, state)
    else ret (Continue, state)
  else ret (Continue, state).

(** Store history; [i] is the loop variable [iteration]. *)
Definition store_history (max_iterations i : Z)
    (state : ConversationState) : ConversationState :=
  history_append state
    {| entry_iteration := iteration state;
       entry_generator_output := generator_output state;
       entry_critic_feedback :=
         if i <? max_iterations - 1
         then Some (critic_feedback state) else None |}.

(** One pass of the body of the [for] loop. *)
Definition loop_body (user_query : string) (max_iterations : Z)
    (verbose : bool) (iteration : Z) (state : ConversationState)
    : M (DualAgentCoordinator * World) (Flow * ConversationState) :=
  let state := set_iteration state (iteration + 1) in
  let* state := generator_phase user_query iteration state in
  let* _ := verbose_print verbose (generator_panel state) in
  let* (flow, state) :=
    critic_phase user_query max_iterations verbose iteration state in
  match flow with
  | Break => ret (Break, state)
  | Continue => ret (Continue, store_history max_iterations iteration state)
  end.

(** [for iteration in its: body], left at the first [break]. *)
Fixpoint for_loop (user_query : string) (max_iterations : Z) (verbose : bool)
    (its : list Z) (state : ConversationState)
    : M (DualAgentCoordinator * World) ConversationState :=
  match its with
  | [] => ret state
  | iteration :: rest =>
      let* (flow, state) :=
        loop_body user_query max_iterations verbose iteration state in
      match flow with
      | Break => ret state
      | Continue => for_loop user_query max_iterations verbose rest state
      end
  end.

(** [range(n)] *)
Definition range (n : Z) : list Z := seqZ 0 n.

(** The dict [run] returns. *)
Definition result_dict (state : ConversationState)
    (self : DualAgentCoordinator) : RunResult :=
  {| res_final_response := generator_output state;
     res_iterations := iteration state;
     res_converged := converged state;
     res_history := history state;
     res_generator_calls := call_count (generator self);
     res_critic_calls := call_count (critic self) |}.

(** [DualAgentCoordinator.run] *)
Definition run (user_query : string) (max_iterations : Z) (verbose : bool)
    : M (DualAgentCoordinator * World) RunResult :=
  let state := mkConversationState user_query max_iterations in
  let* _ := verbose_print verbose (opening_panel user_query max_iterations) in
  let* state :=
    for_loop user_query max_iterations verbose (range max_iterations) state in
  fun '(self, w) => (Ret (result_dict state self), (self, w)).

(** ** Vocabulary of the statements *)

(** The backend call an agent makes for a prompt. *)
Definition ask (a : Agent) (prompt : string) : World -> string * World :=
  generate (client a) prompt (system_prompt (config a)) (model (config a))
           (temperature (config a)) false.

End Backend.

Definition bump (a : Agent) : Agent := set_call_count a (call_count a + 1).

(** The coordinator [self] with its two counters at [g] and [k]. *)
Definition set_counts (self : DualAgentCoordinator) (g k : Z)
    : DualAgentCoordinator :=
  {| coordinator_client := coordinator_client self;
     generator := set_call_count (generator self) g;
     critic := set_call_count (critic self) k |}.

(** The roles [__init__] gives the two agents. *)
Definition well_formed (self : DualAgentCoordinator) : Prop :=
  role (config (generator self)) = GENERATOR
  ∧ role (config (critic self)) = CRITIC.

(** The prompt the generator sends in iteration [iteration] (0-based). *)
Definition generator_prompt (user_query : string) (iteration : Z)
    (state : ConversationState) : string :=
  if (iteration =? 0) || negb (str_truthy (critic_feedback state))
  then first_call_prompt user_query
  else improvement_prompt user_query (generator_output state)
                          (critic_feedback state).

Definition feedback_present (e : HistoryEntry) : Prop :=
  is_Some (entry_critic_feedback e).

(** The entries carry the iteration numbers 1, 2, ... in order. *)
Definition numbered (h : list HistoryEntry) : Prop :=
  entry_iteration <$> h = seqZ 1 (Z.of_nat (length h)).

(** What holds of the loop state when iteration [i] (0-based) is about to
    start: [i] entries stored, all with feedback, no convergence yet. *)
Definition loop_pre (i : Z) (st : ConversationState) : Prop :=
  converged st = false ∧ Z.of_nat (length (history st)) = i
  ∧ numbered (history st) ∧ Forall feedback_present (history st).

(** The loop used up its [N] iterations. *)
Definition exhausted (N : Z) (st : ConversationState) : Prop :=
  converged st = false ∧ iteration st = N ∧ numbered (history st)
  ∧ ∃ h last, history st = h ++ [last] ∧ Z.of_nat (length h) = N - 1
      ∧ Forall feedback_present h ∧ entry_critic_feedback last = None
      ∧ entry_generator_output last = generator_output st.

(** The loop was left by [break] in iteration [j] (1-based). *)
Definition left_at (j : Z) (st : ConversationState) : Prop :=
  converged st = true ∧ iteration st = j
  ∧ convergence_detected (critic_feedback st) = true
  ∧ numbered (history st) ∧ Forall feedback_present (history st)
  ∧ Z.of_nat (length (history st)) = j - 1.

(** Whitespace and trimming, stated without [strip]. *)
Fixpoint all_space (s : string) : bool :=
  match s with
  | EmptyString => true
  | String c t => py_isspace c && all_space t
  end.

Definition starts_with_space (s : string) : bool :=
  match s with
  | EmptyString => false
  | String c _ => py_isspace c
  end.

Fixpoint ends_with_space (s : string) : bool :=
  match s with
  | EmptyString => false
  | String c EmptyString => py_isspace c
  | String _ t => ends_with_space t
  end.

(** [t] is [s] without its leading and trailing whitespace. *)
Definition is_trim_of (t s : string) : Prop :=
  (∃ pre post, s = pre +:+ t +:+ post
               ∧ all_space pre = true ∧ all_space post = true)
  ∧ starts_with_space t = false ∧ ends_with_space t = false.

(** The state invariant as the data model words it, read on a result:
    the iteration counter has left 1, there is one history entry per
    iteration reached, numbered in order, and the entry of the final
    iteration, and no other, lacks feedback. *)
Definition data_model_invariant (r : RunResult) : Prop :=
  1 <= res_iterations r
  ∧ Z.of_nat (length (res_history r)) = res_iterations r
  ∧ numbered (res_history r)
  ∧ (∃ e, e ∈ res_history r ∧ entry_iteration e = res_iterations r
          ∧ entry_critic_feedback e = None)
  ∧ (∀ e, e ∈ res_history r → entry_critic_feedback e = None →
          entry_iteration e = res_iterations r).

(** A prompt that carries both texts verbatim. *)
Definition prompt_embeds (answer feedback prompt : string) : Prop :=
  str_in answer prompt = true ∧ str_in feedback prompt = true.

(** ASCII case folding, and a phrase occurring in a text in any letter
    case; both are stated without [lower]. *)
Definition fold_case (c : ascii) : ascii :=
  let n := N_of_ascii c in
  if ((65 <=? n) && (n <=? 90))%N then ascii_of_N (n + 32) else c.

Fixpoint fold_cases (s : string) : string :=
  match s with
  | EmptyString => EmptyString
  | String c t => String (fold_case c) (fold_cases t)
  end.

Fixpoint ascii_only (s : string) : bool :=
  match s with
  | EmptyString => true
  | String c t => (N_of_ascii c <? 128)%N && ascii_only t
  end.

Definition contains_ignoring_case (phrase text : string) : Prop :=
  ∃ pre mid post, text = pre +:+ mid +:+ post
                  ∧ fold_cases mid = fold_cases phrase.

(** The console raises nothing: either nothing is rendered or it accepts
    every text. *)
Definition renders_quietly (console_print : Renderable -> Res unit)
    (verbose : bool) : Prop :=
  verbose = false ∨ ∀ x, console_print x = Ret tt.

(** ** Recording the requests of a backend *)

Record Request : Type := {
  req_url : string;
  req_json : Payload;
  req_timeout : Z
}.

(** The backend [post], keeping beside its world the requests it got. *)
Definition recorded {World : Type}
    (post : string -> Payload -> Z -> M World Response)
    : string -> Payload -> Z -> M (World * list Request) Response :=
  fun url payload timeout '(w, log) =>
    let '(r, w') := post url payload timeout w in
    (r, (w', log ++ [{| req_url := url; req_json := payload;
                        req_timeout := timeout |}])).

(** The request agent [a] sends for [prompt]. *)
Definition agent_request (a : Agent) (prompt : string) : Request :=
  {| req_url := api_endpoint (client a);
     req_json := {| p_model := model (config a); p_prompt := prompt;
                    p_system := system_prompt (config a);
                    p_stream := false;
                    p_temperature := temperature (config a) |};
     req_timeout := 120 |}.

Definition generator_request (c : DualAgentCoordinator) (q : string)
    (r : Request) : Prop :=
  r = agent_request (generator c) (first_call_prompt q)
  ∨ ∃ a f, r = agent_request (generator c) (improvement_prompt q a f).

Definition critic_request (c : DualAgentCoordinator) (q : string)
    (r : Request) : Prop :=
  ∃ a, r = agent_request (critic c) (critic_prompt q a).

(** The shape of the requests of one run: generator and critic strictly
    in turn, the generator first. *)
Inductive run_requests (c : DualAgentCoordinator) (q : string)
    : list Request -> Prop :=
  | requests_none : run_requests c q []
  | requests_last r : generator_request c q r -> run_requests c q [r]
  | requests_pair r1 r2 rest :
      generator_request c q r1 -> critic_request c q r2 ->
      run_requests c q rest -> run_requests c q (r1 :: r2 :: rest).

(** The string [generate] returns for a failed request: the outcome is
    an exception or a response with a status other than 200. *)
Definition failed (outcome : Res Response) : Prop :=
  match outcome with
  | Raise _ => True
  | Ret response => status_code response ≠ 200
  end.

Definition error_text (outcome : Res Response) : string :=
  match outcome with
  | Raise e => "Error: " +:+ exn_str e
  | Ret response => "Error: HTTP " +:+ pretty (status_code response)
  end.

(** The prompts of a run of [n] iterations in which every reply is the
    text [E]: the first-call prompt, then by turns the critic prompt for
    [E] and the improvement prompt with [E] as previous answer and as
    feedback. *)
Definition prompts_when_every_reply_is (q E : string) (n : nat)
    : list string :=
  match n with
  | O => []
  | S m => first_call_prompt q
           :: concat (replicate m [critic_prompt q E;
                                   improvement_prompt q E E])
  end.

(** ** Stub backends *)

Definition ok_response (text : string) : Response :=
  {| status_code := 200;
     response_json := Ret (JObj (<["response" := JStr text]> ∅)) |}.

Definition is_critic_request (payload : Payload) : bool :=
  String.eqb (p_system payload) CRITIC_SYSTEM_PROMPT.

(** The stub backends keep, as their world, the prompts received so far. *)

(** Answers every generator request with [gen_text] and every critic
    request with [critic_text]. *)
Definition stub_post (gen_text critic_text : string)
    : string -> Payload -> Z -> M (list string) Response :=
  fun url payload timeout log =>
    (Ret (ok_response (if is_critic_request payload
                       then critic_text else gen_text)),
     log ++ [p_prompt payload]).

(** Gives every request the same outcome. *)
Definition constant_post (outcome : Res Response)
    : string -> Payload -> Z -> M (list string) Response :=
  fun url payload timeout log => (outcome, log ++ [p_prompt payload]).

(** Plays a script of outcomes, one per request (its world is what is
    left of the script); the connection is refused once it is over. *)
Definition scripted_post
    : string -> Payload -> Z -> M (list (Res Response)) Response :=
  fun url payload timeout script =>
    match script with
    | [] => (Raise (RequestException "Connection refused"), [])
    | outcome :: rest => (outcome, rest)
    end.

(** A response with a failure status and no JSON body. *)
Definition failure_response (status : Z) : Response :=
  {| status_code := status;
     response_json :=
       Raise (JSONDecodeError "Expecting value: line 1 column 1 (char 0)") |}.

(** Where [needle] first occurs in [haystack], if it does. *)
Fixpoint str_index (needle haystack : string) : option nat :=
  if String.prefix needle haystack then Some O
  else match haystack with
       | EmptyString => None
       | String _ t => S <$> str_index needle t
       end.

Definition rendered_markup (x : Renderable) : string :=
  match x with
  | Panel content _ => content
  | Markup text => text
  end.

(** A console that refuses, with rich's message, a text that holds the
    closing tag [/INST] (no tag of the texts used here opens it) and
    accepts every other text. *)
Definition stub_console (x : Renderable) : Res unit :=
  match str_index "[/INST]" (rendered_markup x) with
  | Some position =>
      Raise (MarkupError ("closing tag '[/INST]' at position "
                          +:+ pretty (Z.of_nat position)
                          +:+ " doesn't match any open tag"))
  | None => Ret tt
  end.

Definition fresh_coordinator : DualAgentCoordinator :=
  DualAgentCoordinator_init default_client.

(** * The rest of the client, the prerequisite check and the examples *)

(** ** Python operators on JSON values *)

(** The characters of a string, as one-character strings. *)
Fixpoint chars (s : string) : list json :=
  match s with
  | EmptyString => []
  | String c t => JStr (String c EmptyString) :: chars t
  end.

(** [for x in v]: a list gives its items, a dict its keys, a str its
    characters; nothing else can be iterated.  A dict is modelled without
    its insertion order; the model check below gives the same answer for
    every order of the keys. *)
Definition py_iter (v : json) : Res (list json) :=
  match v with
  | JArr l => Ret l
  | JObj o => Ret (JStr <$> (fst <$> map_to_list o))
  | JStr s => Ret (chars s)
  | _ => Raise (TypeError ("'" +:+ py_type_name v +:+ "' object is not iterable"))
  end.

Definition is_json_str (t : string) (v : json) : bool :=
  match v with
  | JStr s => String.eqb s t
  | _ => false
  end.

(** [needle in v] for a str [needle]: substring of a str, item of a list,
    key of a dict; a [TypeError] on anything else. *)
Definition py_contains (needle : string) (v : json) : Res bool :=
  match v with
  | JStr s => Ret (str_in needle s)
  | JArr l => Ret (existsb (is_json_str needle) l)
  | JObj o => Ret (bool_decide (is_Some (o !! needle)))
  | _ => Raise (TypeError ("argument of type '" +:+ py_type_name v
                           +:+ "' is not iterable"))
  end.

(** [any(model_name in model.get('name', '') for model in models)]: the
    generator is consumed up to the first true item. *)
Fixpoint any_model_named (model_name : string) (models : list json) : Res bool :=
  match models with
  | [] => Ret false
  | model :: rest =>
      res_bind (json_get model "name" (JStr "")) (fun name =>
      res_bind (py_contains model_name name) (fun found =>
      if found then Ret true else any_model_named model_name rest))
  end.

Section HealthChecks.

(** [requests.get(url)] and [requests.get(url, timeout=t)]. *)
Context {World : Type}.
Variable requests_get : string -> option Z -> M World Response.

(** [OllamaClient.check_ollama_status] *)
Definition check_ollama_status (self : OllamaClient) : World -> bool * World :=
  try_except
    (let* response := requests_get (base_url self +:+ "/api/tags") (Some 5) in
     ret (status_code response =? 200))
    (fun _ => false).

(** [OllamaClient.check_model_availability] *)
Definition check_model_availability (self : OllamaClient) (model_name : string)
    : World -> bool * World :=
  try_except
    (let* response := requests_get (base_url self +:+ "/api/tags") None in
     if status_code response =? 200 then
       let* result := lift_res (response_json response) in
       let* models := lift_res (json_get result "models" (JArr [])) in
       let* items := lift_res (py_iter models) in
       lift_res (any_model_named model_name items)
     else ret false)
    (fun _ => false).

(** What [subprocess.run(args, check=True)] can do: return, raise
    [CalledProcessError] on a non-zero exit status, or raise something
    else (the executable is missing, ...). *)
Inductive SubprocessOutcome : Type :=
  | Completed
  | CalledProcessError (returncode : Z)
  | OtherError (msg : string).

Variable subprocess_run : list string -> World -> SubprocessOutcome * World.

(** The outcome of [check_prerequisites]: a returned bool, or the
    exception it lets through. *)
Inductive PrerequisiteOutcome : Type :=
  | Returned (ok : bool)
  | Propagated (msg : string).

(** [check_prerequisites] *)
Definition check_prerequisites : World -> PrerequisiteOutcome * World :=
  fun w =>
    let client := default_client in
    let '(running, w) := check_ollama_status client w in
    if negb running then (Returned false, w)
    else
      let '(available, w) := check_model_availability client "granite3-moe:1b" w in
      if negb available then
        match subprocess_run ["ollama"; "pull"; "granite3-moe:1b"] w with
        | (Completed, w) => (Returned true, w)
        | (CalledProcessError _, w) => (Returned false, w)
        | (OtherError msg, w) => (Propagated msg, w)
        end
      else (Returned true, w).

End HealthChecks.

(** A well-formed entry of the model listing: an object whose ['name'],
    when present, is text. *)
Definition model_entry (v : json) : Prop :=
  ∃ d, v = JObj d
       ∧ (d !! "name" = None ∨ ∃ s, d !! "name" = Some (JStr s)).

(** An entry whose name contains [model_name]. *)
Definition names_model (model_name : string) (v : json) : Prop :=
  ∃ d s pre post, v = JObj d ∧ default (JStr "") (d !! "name") = JStr s
                  ∧ s = pre +:+ model_name +:+ post.

(** A history entry whose feedback, if any, does not set off the
    convergence test. *)
Definition quiet (e : HistoryEntry) : Prop :=
  ∀ f, entry_critic_feedback e = Some f → convergence_detected f = false.

(** ** Stub endpoints for the health checks *)

(** Gives every GET the same outcome. *)
Definition constant_get (outcome : Res Response)
    : string -> option Z -> M unit Response :=
  fun url timeout w => (outcome, w).

(** A 200 response listing models by name. *)
Definition listing_response (names : list string) : Response :=
  {| status_code := 200;
     response_json :=
       Ret (JObj (<["models" :=
                    JArr ((fun n => JObj (<["name" := JStr n]> ∅)) <$> names)]> ∅)) |}.

(** ** The examples *)

(** [s[:n]] *)
Fixpoint str_take (n : nat) (s : string) : string :=
  match n, s with
  | O, _ => EmptyString
  | S n', EmptyString => EmptyString
  | S n', String c t => String c (str_take n' t)
  end.

(** The preview column of the batch table:
    [r[:100] + "..." if len(r) > 100 else r]. *)
Definition preview (response : string) : string :=
  if (100 <? String.length response)%nat
  then str_take 100 response +:+ "..."
  else response.

Record BatchEntry : Type := {
  batch_query : string;
  batch_response : string;
  batch_iterations : Z
}.

Section Examples.
Context {World : Type}.
Variable requests_post : string -> Payload -> Z -> M World Response.
Variable console_print : Renderable -> Res unit.

(** The loop of [example_7_batch_processing]: one run of at most two
    iterations per query, all on the same coordinator.  The two progress
    lines it prints per query are fixed markup around numbers and are
    left out. *)
Fixpoint batch_loop (queries : list string) (results : list BatchEntry)
    : M (DualAgentCoordinator * World) (list BatchEntry) :=
  match queries with
  | [] => ret results
  | query :: rest =>
      let* result := run requests_post console_print query 2 false in
      batch_loop rest
        (results ++ [{| batch_query := query;
                        batch_response := res_final_response result;
                        batch_iterations := res_iterations result |}])
  end.

(** [coordinator.generator.config.temperature = g] and the same for the
    critic. *)
Definition set_temperature (a : Agent) (t : Q) : Agent :=
  {| config := {| name := name (config a); role := role (config a);
                  system_prompt := system_prompt (config a);
                  model := model (config a); temperature := t;
                  max_tokens := max_tokens (config a) |};
     client := client a; call_count := call_count a |}.

(** [example_3_creative_task], after the fixed banner it prints. *)
Definition example_3_creative_task
    : World -> Res RunResult * (DualAgentCoordinator * World) :=
  fun w =>
    let client := default_client in
    let coordinator := DualAgentCoordinator_init client in
    let coordinator :=
      {| coordinator_client := coordinator_client coordinator;
         generator := set_temperature (generator coordinator) (9 # 10);
         critic := critic coordinator |} in
    let coordinator :=
      {| coordinator_client := coordinator_client coordinator;
         generator := generator coordinator;
         critic := set_temperature (critic coordinator) (5 # 10) |} in
    run requests_post console_print
        "Write a brief story about an AI that learns to appreciate art."
        3 true (coordinator, w).

End Examples.

(** * Properties *)

(** ** Strings *)

Lemma prefix_append n post : String.prefix n (n +:+ post) = true.
Proof.
  induction n as [|c n IH]; simpl.
  - by destruct post.
  - destruct (Ascii.ascii_dec c c); [exact IH | congruence].
Qed.

Lemma prefix_inv n h : String.prefix n h = true → ∃ post, h = n +:+ post.
Proof.
  revert h. induction n as [|c n IH]; intros h H.
  - by exists h.
  - destruct h as [|d h]; simpl in H; [discriminate|].
    destruct (Ascii.ascii_dec c d) as [->|]; [|discriminate].
    destruct (IH _ H) as [post ->]. by exists post.
Qed.

Lemma str_in_prefix n h : String.prefix n h = true → str_in n h = true.
Proof. intros H. destruct h; cbn [str_in]; by rewrite H. Qed.

Lemma str_in_spec n h :
  str_in n h = true ↔ ∃ pre post, h = pre +:+ n +:+ post.
Proof.
  split.
  - induction h as [|c h IH]; cbn [str_in]; intros H.
    + destruct n; [by exists "", ""|discriminate].
    + apply orb_true_iff in H as [H|H].
      * apply prefix_inv in H as [post ->]. by exists "", post.
      * destruct (IH H) as (pre & post & ->). by exists (String c pre), post.
  - intros (pre & post & ->). induction pre as [|c pre IH].
    + apply str_in_prefix. exact (prefix_append n post).
    + change (String c pre +:+ n +:+ post) with (String c (pre +:+ n +:+ post)).
      cbn [str_in]. rewrite IH. apply orb_true_r.
Qed.

Lemma append_cons c (a b : string) : String c a +:+ b = String c (a +:+ b).
Proof. reflexivity. Qed.

Lemma append_nil (b : string) : "" +:+ b = b.
Proof. reflexivity. Qed.

Lemma append_empty_r (a : string) : a +:+ "" = a.
Proof. induction a as [|x a IH]; [done|]. by rewrite append_cons, IH. Qed.

Lemma lstrip_decompose s :
  ∃ pre, s = pre +:+ lstrip s ∧ all_space pre = true
         ∧ starts_with_space (lstrip s) = false.
Proof.
  induction s as [|c s (pre & E & Hpre & Hs)]; [by exists ""|].
  simpl. destruct (py_isspace c) eqn:Hc.
  - exists (String c pre).
    split; [rewrite append_cons; f_equal; exact E|].
    split; [simpl; by rewrite Hc|exact Hs].
  - exists "". rewrite append_nil. simpl. by rewrite Hc.
Qed.

Lemma rstrip_decompose s :
  ∃ post, s = rstrip s +:+ post ∧ all_space post = true
          ∧ ends_with_space (rstrip s) = false.
Proof.
  induction s as [|c s (post & E & Hpost & Hs)]; [by exists ""|].
  simpl. destruct (rstrip s) as [|d r] eqn:Hr.
  - destruct (py_isspace c) eqn:Hc.
    + exists (String c post). rewrite append_nil in *. subst s.
      split; [done|]. split; [simpl; by rewrite Hc|done].
    + exists post. rewrite append_nil in E. subst s.
      rewrite append_cons, append_nil. simpl. by rewrite Hc.
  - exists post. split; [rewrite append_cons; f_equal; exact E|].
    split; [done|exact Hs].
Qed.

Lemma lstrip_ends s :
  ends_with_space s = false → ends_with_space (lstrip s) = false.
Proof.
  induction s as [|c s IH]; [done|]. intros H. simpl.
  destruct (py_isspace c) eqn:Hc; [|exact H].
  apply IH. destruct s; [done|exact H].
Qed.

Lemma all_space_app a b :
  all_space a = true → all_space b = true → all_space (a +:+ b) = true.
Proof.
  induction a as [|c a IH]; [done|]. rewrite append_cons. simpl.
  intros [-> Ha]%andb_true_iff Hb. by rewrite IH.
Qed.

Lemma app_assoc_str (a b c : string) : (a +:+ b) +:+ c = a +:+ b +:+ c.
Proof. induction a as [|x a IH]; [done|]. by rewrite !append_cons, IH. Qed.

Lemma strip_is_trim s : is_trim_of (strip s) s.
Proof.
  unfold strip.
  destruct (rstrip_decompose s) as (post & E & Hpost & Hend).
  destruct (lstrip_decompose (rstrip s)) as (pre & E' & Hpre & Hstart).
  split; [|split; [exact Hstart|by apply lstrip_ends]].
  exists pre, post. split; [|done].
  rewrite <- app_assoc_str, <- E'. exact E.
Qed.



(** ** The client and the agents *)

Section Client.
Context {World : Type}.
Variable requests_post : string -> Payload -> Z -> M World Response.

Lemma generate_response self prompt system model temperature stream w resp w' :
  requests_post (api_endpoint self)
    {| p_model := model; p_prompt := prompt; p_system := system;
       p_stream := stream; p_temperature := temperature |} 120 w
    = (Ret resp, w') →
  generate requests_post self prompt system model temperature stream w
  = (if status_code resp =? 200 then
      match res_bind (response_json resp) (fun result =>
            res_bind (json_get result "response" (JStr "")) json_strip) with
      | Ret text => text
      | Raise e => "Error: " +:+ exn_str e
      end
    else "Error: HTTP " +:+ pretty (status_code resp), w').
Proof.
  intros H. unfold generate, try_except, bind. rewrite H.
  destruct (status_code resp =? 200); [|done].
  unfold lift_res. destruct (response_json resp) as [result|e]; [|done].
  simpl. destruct (json_get result "response" (JStr "")) as [text|e]; [|done].
  simpl. by destruct (json_strip text).
Qed.

Lemma generate_raise self prompt system model temperature stream w e w' :
  requests_post (api_endpoint self)
    {| p_model := model; p_prompt := prompt; p_system := system;
       p_stream := stream; p_temperature := temperature |} 120 w
    = (Raise e, w') →
  generate requests_post self prompt system model temperature stream w
  = ("Error: " +:+ exn_str e, w').
Proof. intros H. unfold generate, try_except, bind. by rewrite H. Qed.

(** C7: on a 200 response whose body is a JSON object, [generate] returns
    the text of the ['response'] field with its leading and trailing
    whitespace removed, and the empty text when the field is missing; on
    any other status it returns "Error: HTTP " followed by the status
    code; when the request raises it returns "Error: " followed by the
    exception's message.  In every case the outcome is a string. *)
Theorem generate_returns_text_or_error_text
    self prompt system model temperature stream w :
  let payload := {| p_model := model; p_prompt := prompt; p_system := system;
                    p_stream := stream; p_temperature := temperature |} in
  let sent := requests_post (api_endpoint self) payload 120 w in
  let got := generate requests_post self prompt system model temperature stream w in
  (∀ resp w' o, sent = (Ret resp, w') → status_code resp = 200 →
     response_json resp = Ret (JObj o) →
     (∀ s, o !! "response" = Some (JStr s) →
           got = (strip s, w') ∧ is_trim_of (strip s) s)
     ∧ (o !! "response" = None → got = ("", w')))
  ∧ (∀ resp w', sent = (Ret resp, w') → status_code resp ≠ 200 →
       got = ("Error: HTTP " +:+ pretty (status_code resp), w')
       ∧ str_in (pretty (status_code resp)) got.1 = true)
  ∧ (∀ e w', sent = (Raise e, w') → got = ("Error: " +:+ exn_str e, w')).
Proof.
  intros payload sent got. split; [|split].
  - intros resp w' o Hsent Hst Hjs. unfold got.
    rewrite (generate_response _ _ _ _ _ _ _ _ _ Hsent), Hst, Hjs. simpl.
    split.
    + intros s Hs. rewrite Hs. simpl. split; [done|apply strip_is_trim].
    + intros Hs. by rewrite Hs.
  - intros resp w' Hsent Hst. unfold got.
    rewrite (generate_response _ _ _ _ _ _ _ _ _ Hsent).
    apply Z.eqb_neq in Hst. rewrite Hst. split; [done|].
    apply str_in_spec. exists "Error: HTTP ", "".
    cbn [fst]. by rewrite append_empty_r.
  - intros e w' Hsent. by apply generate_raise.
Qed.
End Client.

Section Agents.
Context {World : Type}.
Variable requests_post : string -> Payload -> Z -> M World Response.

Lemma process_ok (a : Agent) input context prompt w :
  build_prompt (role (config a)) input context = Ret prompt →
  process requests_post input context (a, w)
  = (Ret (ask requests_post a prompt w).1,
     (bump a, (ask requests_post a prompt w).2)).
Proof.
  intros H. unfold process, ask. cbn [config set_call_count role].
  rewrite H. cbn [client config set_call_count system_prompt model temperature].
  by destruct (generate _ _ _ _ _ _ _ _).
Qed.

Lemma process_raise (a : Agent) input context e w :
  build_prompt (role (config a)) input context = Raise e →
  process requests_post input context (a, w) = (Raise e, (bump a, w)).
Proof. intros H. unfold process. cbn [config set_call_count role]. by rewrite H. Qed.

Lemma previous_pair_lookup (q a f : string) :
  let d : gmap string string :=
    <["query" := q]> (<["previous_response" := a]> (<["feedback" := f]> ∅)) in
  d !! "query" = Some q ∧ d !! "previous_response" = Some a
  ∧ d !! "feedback" = Some f.
Proof.
  intros d. unfold d. split; [|split].
  - by rewrite lookup_insert_eq.
  - by rewrite lookup_insert_ne, lookup_insert_eq.
  - by rewrite lookup_insert_ne, lookup_insert_ne, lookup_insert_eq.
Qed.

Lemma build_prompt_generator q it st :
  build_prompt GENERATOR q (generator_context q it st)
  = Ret (generator_prompt q it st).
Proof.
  unfold generator_context, generator_prompt, build_prompt, has_feedback.
  destruct (it =? 0); [done|]. unfold subscript.
  destruct (previous_pair_lookup q (generator_output st) (critic_feedback st))
    as (-> & -> & ->).
  by destruct (critic_feedback st).
Qed.

Lemma build_prompt_critic q a :
  build_prompt CRITIC a (Some (critic_context q)) = Ret (critic_prompt q a).
Proof.
  unfold build_prompt, subscript, critic_context.
  by rewrite lookup_insert_eq.
Qed.

End Agents.

(** ** The loop, with and without rendering *)

Section Loop.
Context {World : Type}.
Variable requests_post : string -> Payload -> Z -> M World Response.
Variable console_print : Renderable -> Res unit.

Lemma generator_phase_spec q it st c g k w :
  well_formed c →
  generator_phase requests_post q it st (set_counts c g k, w)
  = let ans := ask requests_post (generator c) (generator_prompt q it st) w in
    (Ret (set_generator_output st ans.1), (set_counts c (g + 1) k, ans.2)).
Proof.
  intros [Hg _]. unfold generator_phase, bind, on_generator.
  cbn [generator set_counts].
  rewrite (process_ok _ _ _ _ (generator_prompt q it st)).
  2:{ cbn [config set_call_count]. rewrite Hg. apply build_prompt_generator. }
  reflexivity.
Qed.

(** The critic phase with its rendering: an exception of the console is
    raised after the critic was called and counted. *)
Lemma critic_phase_verbose q N v it st c g k w :
  well_formed c →
  critic_phase requests_post console_print q N v it st (set_counts c g k, w)
  = if it <? N - 1 then
      let fb := ask requests_post (critic c)
                    (critic_prompt q (generator_output st)) w in
      let st' := set_critic_feedback st fb.1 in
      let s' := (set_counts c g (k + 1), fb.2) in
      match rendering console_print v (critic_panel st') with
      | Raise e => (Raise e, s')
      | Ret _ =>
          if convergence_detected fb.1 then
            match rendering console_print v converged_line with
            | Raise e => (Raise e, s')
            | Ret _ => (Ret (Break, set_converged st' true), s')
            end
          else (Ret (Continue, st'), s')
      end
    else (Ret (Continue, st), (set_counts c g k, w)).
Proof.
  intros [_ Hk]. unfold critic_phase.
  destruct (it <? N - 1); [|done].
  unfold bind at 1. unfold on_critic. cbn [critic set_counts].
  rewrite (process_ok _ _ _ _ (critic_prompt q (generator_output st))).
  2:{ cbn [config set_call_count]. rewrite Hk. apply build_prompt_critic. }
  cbn zeta. unfold bind, verbose_print, lift_res.
  destruct (rendering console_print v (critic_panel _)) as [[]|e]; [|done].
  cbn [critic_feedback set_critic_feedback].
  destruct (convergence_detected _); [|done].
  by destruct (rendering console_print v converged_line) as [[]|e].
Qed.

(** One pass of the loop with its rendering. *)
Lemma loop_body_verbose q N v it st c g k w :
  well_formed c →
  loop_body requests_post console_print q N v it st (set_counts c g k, w)
  = let ans := ask requests_post (generator c) (generator_prompt q it st) w in
    let st1 := set_generator_output (set_iteration st (it + 1)) ans.1 in
    let s1 := (set_counts c (g + 1) k, ans.2) in
    match rendering console_print v (generator_panel st1) with
    | Raise e => (Raise e, s1)
    | Ret _ =>
        if it <? N - 1 then
          let fb := ask requests_post (critic c) (critic_prompt q ans.1) ans.2 in
          let st2 := set_critic_feedback st1 fb.1 in
          let s2 := (set_counts c (g + 1) (k + 1), fb.2) in
          match rendering console_print v (critic_panel st2) with
          | Raise e => (Raise e, s2)
          | Ret _ =>
              if convergence_detected fb.1 then
                match rendering console_print v converged_line with
                | Raise e => (Raise e, s2)
                | Ret _ => (Ret (Break, set_converged st2 true), s2)
                end
              else (Ret (Continue, store_history N it st2), s2)
          end
        else (Ret (Continue, store_history N it st1), s1)
    end.
Proof.
  intros Hwf. unfold loop_body. unfold bind at 1.
  rewrite generator_phase_spec by done. cbn zeta.
  change (generator_prompt q it (set_iteration st (it + 1)))
    with (generator_prompt q it st).
  unfold bind at 1. unfold verbose_print at 1. unfold lift_res at 1.
  destruct (rendering console_print v (generator_panel _)) as [[]|e]; [|done].
  unfold bind. rewrite critic_phase_verbose by done.
  destruct (it <? N - 1); [|done]. cbn zeta.
  cbn [generator_output set_generator_output].
  destruct (rendering console_print v (critic_panel _)) as [[]|e]; [|done].
  destruct (convergence_detected _); [|done].
  by destruct (rendering console_print v converged_line) as [[]|e].
Qed.

Lemma critic_phase_spec q N it st c g k w :
  well_formed c →
  critic_phase requests_post console_print q N false it st
               (set_counts c g k, w)
  = if it <? N - 1 then
      let fb := ask requests_post (critic c)
                    (critic_prompt q (generator_output st)) w in
      let st' := set_critic_feedback st fb.1 in
      (Ret (if convergence_detected fb.1
            then (Break, set_converged st' true) else (Continue, st')),
       (set_counts c g (k + 1), fb.2))
    else (Ret (Continue, st), (set_counts c g k, w)).
Proof.
  intros Hwf. rewrite critic_phase_verbose by done.
  destruct (it <? N - 1); [|done]. cbn.
  by destruct (convergence_detected _).
Qed.

Lemma loop_body_spec q N it st c g k w :
  well_formed c →
  loop_body requests_post console_print q N false it st (set_counts c g k, w)
  = let ans := ask requests_post (generator c) (generator_prompt q it st) w in
    let st1 := set_generator_output (set_iteration st (it + 1)) ans.1 in
    if it <? N - 1 then
      let fb := ask requests_post (critic c) (critic_prompt q ans.1) ans.2 in
      let st2 := set_critic_feedback st1 fb.1 in
      (Ret (if convergence_detected fb.1
            then (Break, set_converged st2 true)
            else (Continue, store_history N it st2)),
       (set_counts c (g + 1) (k + 1), fb.2))
    else (Ret (Continue, store_history N it st1),
          (set_counts c (g + 1) k, ans.2)).
Proof.
  intros Hwf. rewrite loop_body_verbose by done. cbn zeta. cbn [rendering].
  destruct (it <? N - 1); [|done].
  by destruct (convergence_detected _).
Qed.

(** One step of the loop with its rendering. *)
Lemma for_loop_cons_verbose q N v c it rest st g k w :
  well_formed c →
  for_loop requests_post console_print q N v (it :: rest) st
           (set_counts c g k, w)
  = let ans := ask requests_post (generator c) (generator_prompt q it st) w in
    let st1 := set_generator_output (set_iteration st (it + 1)) ans.1 in
    let s1 := (set_counts c (g + 1) k, ans.2) in
    match rendering console_print v (generator_panel st1) with
    | Raise e => (Raise e, s1)
    | Ret _ =>
        if it <? N - 1 then
          let fb := ask requests_post (critic c) (critic_prompt q ans.1) ans.2 in
          let st2 := set_critic_feedback st1 fb.1 in
          let s2 := (set_counts c (g + 1) (k + 1), fb.2) in
          match rendering console_print v (critic_panel st2) with
          | Raise e => (Raise e, s2)
          | Ret _ =>
              if convergence_detected fb.1 then
                match rendering console_print v converged_line with
                | Raise e => (Raise e, s2)
                | Ret _ => (Ret (set_converged st2 true), s2)
                end
              else for_loop requests_post console_print q N v rest
                            (store_history N it st2) s2
          end
        else for_loop requests_post console_print q N v rest
                      (store_history N it st1) s1
    end.
Proof.
  intros Hwf. cbn [for_loop]. unfold bind at 1.
  rewrite loop_body_verbose by done. cbn zeta.
  destruct (rendering console_print v (generator_panel _)) as [[]|e]; [|done].
  destruct (it <? N - 1); [|done].
  destruct (rendering console_print v (critic_panel _)) as [[]|e]; [|done].
  destruct (convergence_detected _); [|done].
  by destruct (rendering console_print v converged_line) as [[]|e].
Qed.

Lemma for_loop_cons q N c it rest st g k w :
  well_formed c →
  for_loop requests_post console_print q N false (it :: rest) st
           (set_counts c g k, w)
  = let ans := ask requests_post (generator c) (generator_prompt q it st) w in
    let st1 := set_generator_output (set_iteration st (it + 1)) ans.1 in
    if it <? N - 1 then
      let fb := ask requests_post (critic c) (critic_prompt q ans.1) ans.2 in
      let st2 := set_critic_feedback st1 fb.1 in
      if convergence_detected fb.1
      then (Ret (set_converged st2 true), (set_counts c (g + 1) (k + 1), fb.2))
      else for_loop requests_post console_print q N false rest
                    (store_history N it st2)
                    (set_counts c (g + 1) (k + 1), fb.2)
    else for_loop requests_post console_print q N false rest
                  (store_history N it st1) (set_counts c (g + 1) k, ans.2).
Proof.
  intros Hwf. rewrite for_loop_cons_verbose by done. cbn zeta.
  cbn [rendering]. destruct (it <? N - 1); [|done].
  by destruct (convergence_detected _).
Qed.

(** A verbose loop that returns has returned what the silent loop returns. *)
Lemma for_loop_returns_silent q N v c (Hwf : well_formed c) its :
  ∀ st g k w st' s',
    for_loop requests_post console_print q N v its st (set_counts c g k, w)
    = (Ret st', s') →
    for_loop requests_post console_print q N false its st
             (set_counts c g k, w)
    = (Ret st', s').
Proof.
  induction its as [|it rest IH]; intros st g k w st' s' Hrun; [done|].
  rewrite for_loop_cons_verbose in Hrun by done.
  rewrite for_loop_cons by done. cbn zeta in *.
  destruct (rendering console_print v (generator_panel _)) as [[]|e];
    [|discriminate].
  destruct (it <? N - 1); [|by apply IH].
  destruct (rendering console_print v (critic_panel _)) as [[]|e];
    [|discriminate].
  destruct (convergence_detected _); [|by apply IH].
  by destruct (rendering console_print v converged_line) as [[]|e].
Qed.

(** An exception of the loop is one the console raised. *)
Lemma for_loop_raises_from_console q N v c (Hwf : well_formed c) its :
  ∀ st g k w e s',
    for_loop requests_post console_print q N v its st (set_counts c g k, w)
    = (Raise e, s') →
    v = true ∧ ∃ x, console_print x = Raise e.
Proof.
  assert (∀ x e, rendering console_print v x = Raise e →
                 v = true ∧ ∃ x, console_print x = Raise e) as Hr.
  { intros x e. unfold rendering. destruct v; [|discriminate]. by eauto. }
  induction its as [|it rest IH]; intros st g k w e s' Hrun; [done|].
  rewrite for_loop_cons_verbose in Hrun by done. cbn zeta in Hrun.
  destruct (rendering console_print v (generator_panel _)) as [[]|e1] eqn:H1.
  2:{ injection Hrun as <- _. by eapply Hr. }
  destruct (it <? N - 1); [|by eapply IH].
  destruct (rendering console_print v (critic_panel _)) as [[]|e2] eqn:H2.
  2:{ injection Hrun as <- _. by eapply Hr. }
  destruct (convergence_detected _); [|by eapply IH].
  destruct (rendering console_print v converged_line) as [[]|e3] eqn:H3;
    [discriminate|].
  injection Hrun as <- _. by eapply Hr.
Qed.

(** With a console that raises nothing the verbose loop is the silent one. *)
Lemma for_loop_quiet_console q N v c (Hwf : well_formed c) its :
  renders_quietly console_print v →
  ∀ st g k w,
    for_loop requests_post console_print q N v its st (set_counts c g k, w)
    = for_loop requests_post console_print q N false its st
               (set_counts c g k, w).
Proof.
  intros Hquiet.
  assert (∀ x, rendering console_print v x = Ret tt) as Hr.
  { intros x. unfold rendering. destruct Hquiet as [->|Hall]; [done|].
    by destruct v. }
  induction its as [|it rest IH]; intros st g k w; [done|].
  rewrite for_loop_cons_verbose, for_loop_cons by done. cbn zeta.
  rewrite !Hr. destruct (it <? N - 1); [|by apply IH].
  destruct (convergence_detected _); [done|by apply IH].
Qed.

Lemma set_counts_self c :
  set_counts c (call_count (generator c)) (call_count (critic c)) = c.
Proof. by destruct c as [cl [] []]. Qed.

Lemma well_formed_init cl : well_formed (DualAgentCoordinator_init cl).
Proof. by split. Qed.

Lemma run_verbose q N v s :
  run requests_post console_print q N v s
  = match rendering console_print v (opening_panel q N) with
    | Raise e => (Raise e, s)
    | Ret _ =>
        match for_loop requests_post console_print q N v (range N)
                       (mkConversationState q N) s with
        | (Ret st, (c', w')) => (Ret (result_dict st c'), (c', w'))
        | (Raise e, s') => (Raise e, s')
        end
    end.
Proof.
  unfold run, bind, verbose_print, lift_res.
  destruct (rendering console_print v (opening_panel q N)) as [[]|e]; [|done].
  by destruct (for_loop _ _ _ _ _ _ _ s) as [[st|e] [c' w']].
Qed.

Lemma run_silent q N s :
  run requests_post console_print q N false s
  = match for_loop requests_post console_print q N false (range N)
                   (mkConversationState q N) s with
    | (Ret st, (c', w')) => (Ret (result_dict st c'), (c', w'))
    | (Raise e, s') => (Raise e, s')
    end.
Proof. by rewrite run_verbose. Qed.

(** A verbose run that returns has returned what the silent run returns. *)
Lemma run_returns_silent q N v c w r s' :
  well_formed c →
  run requests_post console_print q N v (c, w) = (Ret r, s') →
  run requests_post console_print q N false (c, w) = (Ret r, s').
Proof.
  intros Hwf. rewrite run_verbose, run_silent.
  destruct (rendering console_print v (opening_panel q N)) as [[]|e];
    [|discriminate].
  rewrite <- (set_counts_self c).
  destruct (for_loop _ _ _ _ v _ _ _) as [[st|e] [c' w']] eqn:Hloop;
    [|discriminate].
  by rewrite (for_loop_returns_silent _ _ _ _ Hwf _ _ _ _ _ _ _ Hloop).
Qed.

(** An exception of a run is one the console raised while rendering. *)
Lemma run_raises_from_console q N v c w e s' :
  well_formed c →
  run requests_post console_print q N v (c, w) = (Raise e, s') →
  v = true ∧ ∃ x, console_print x = Raise e.
Proof.
  intros Hwf. rewrite run_verbose.
  destruct (rendering console_print v (opening_panel q N)) as [[]|e1] eqn:H1.
  - rewrite <- (set_counts_self c).
    destruct (for_loop _ _ _ _ v _ _ _) as [[st|e2] [c' w']] eqn:Hloop;
      [discriminate|].
    intros [= <- _]. by eapply for_loop_raises_from_console.
  - intros [= <- _]. unfold rendering in H1. destruct v; [|discriminate].
    by eauto.
Qed.

(** With a console that raises nothing the verbose run is the silent one. *)
Lemma run_quiet_console q N v c w :
  well_formed c → renders_quietly console_print v →
  run requests_post console_print q N v (c, w)
  = run requests_post console_print q N false (c, w).
Proof.
  intros Hwf Hquiet. rewrite run_verbose, run_silent.
  assert (rendering console_print v (opening_panel q N) = Ret tt) as ->.
  { unfold rendering. destruct Hquiet as [->|Hall]; [done|]. by destruct v. }
  rewrite <- (set_counts_self c).
  by rewrite (for_loop_quiet_console _ _ _ _ Hwf _ Hquiet).
Qed.

End Loop.

Section LoopInduction.
Context {World : Type}.
Variable requests_post : string -> Payload -> Z -> M World Response.
Variable console_print : Renderable -> Res unit.

Lemma numbered_snoc h e :
  numbered h → entry_iteration e = Z.of_nat (length h) + 1 →
  numbered (h ++ [e]).
Proof.
  unfold numbered. intros Hh He.
  rewrite fmap_app, length_app, Hh. cbn [length fmap list_fmap].
  replace (length h + 1)%nat with (S (length h)) by lia.
  rewrite seqZ_S, He. f_equal. f_equal. lia.
Qed.

Lemma loop_pre_store N it st a f :
  loop_pre it st → (it <? N - 1) = true →
  loop_pre (it + 1)
    (store_history N it
       (set_critic_feedback
          (set_generator_output (set_iteration st (it + 1)) a) f)).
Proof.
  intros (Hc & Hl & Hn & Hf) Hlt. unfold loop_pre, store_history.
  cbn [converged history history_append set_critic_feedback
       set_generator_output set_iteration iteration].
  rewrite Hlt. split; [done|]. split; [rewrite length_app; simpl; lia|].
  split.
  - apply numbered_snoc; [done|]. cbn [entry_iteration]. lia.
  - apply Forall_app. split; [done|]. apply Forall_singleton.
    unfold feedback_present. by eexists.
Qed.

Lemma for_loop_spec q N c (Hwf : well_formed c) (m : nat) :
  ∀ i st g k w,
    0 <= i → i + Z.of_nat (S m) = N → loop_pre i st →
    ∃ st' g' k' w',
      for_loop requests_post console_print q N false (seqZ i (Z.of_nat (S m))) st
               (set_counts c g k, w)
      = (Ret st', (set_counts c g' k', w'))
      ∧ ((exhausted N st' ∧ g' = g + (N - i) ∧ k' = k + (N - i - 1))
         ∨ (∃ j, i < j < N ∧ left_at j st'
                 ∧ g' = g + (j - i) ∧ k' = k + (j - i)
                 ∧ ∃ prompt w0,
                     critic_feedback st'
                     = (ask requests_post (critic c) prompt w0).1)).
Proof.
  induction m as [|m IH]; intros i st g k w Hi HN Hpre.
  - (* the last iteration: no critic *)
    change (seqZ i (Z.of_nat 1)) with [i].
    cbn [for_loop]. unfold bind at 1.
    rewrite loop_body_spec by done. cbn zeta.
    assert ((i <? N - 1) = false) as -> by (apply Z.ltb_ge; lia).
    eexists _, _, _, _. split; [reflexivity|]. left.
    destruct Hpre as (Hc & Hl & Hn & Hf).
    split; [|lia]. unfold exhausted, store_history.
    cbn [converged history history_append set_generator_output
         set_iteration iteration generator_output].
    assert ((i <? N - 1) = false) as -> by (apply Z.ltb_ge; lia).
    split; [done|]. split; [lia|]. split.
    + apply numbered_snoc; [done|]. cbn [entry_iteration]. lia.
    + eexists _, _. split; [reflexivity|]. split; [lia|]. done.
  - (* an iteration with a critique *)
    rewrite seqZ_cons by lia.
    replace (Z.pred (Z.of_nat (S (S m)))) with (Z.of_nat (S m)) by lia.
    cbn [for_loop]. unfold bind at 1.
    rewrite loop_body_spec by done. cbn zeta.
    assert ((i <? N - 1) = true) as Hlt by (apply Z.ltb_lt; lia).
    rewrite Hlt.
    set (ans := ask requests_post (generator c) (generator_prompt q i st) w).
    set (fb := ask requests_post (critic c) (critic_prompt q ans.1) ans.2).
    destruct (convergence_detected fb.1) eqn:Hconv.
    + eexists _, _, _, _. split; [reflexivity|]. right. exists (i + 1).
      destruct Hpre as (Hc & Hl & Hn & Hf).
      split; [lia|]. split.
      { unfold left_at.
        cbn [converged set_converged history set_critic_feedback
             set_generator_output set_iteration iteration critic_feedback].
        repeat split; try done; lia. }
      split; [lia|]. split; [lia|].
      exists (critic_prompt q ans.1), ans.2. reflexivity.
    + destruct (IH (Z.succ i) _ (g + 1) (k + 1) fb.2
                  ltac:(lia) ltac:(lia)
                  (loop_pre_store N i st ans.1 fb.1 Hpre Hlt))
        as (st' & g' & k' & w' & Heq & Hpost).
      exists st', g', k', w'. split; [exact Heq|].
      destruct Hpost as [(He & -> & ->)|(j & Hj & Hl & -> & -> & Hp)].
      * left. split; [done|]. lia.
      * right. exists j. split; [lia|]. split; [done|].
        split; [lia|]. split; [lia|]. exact Hp.
Qed.

End LoopInduction.

Section Run.
Context {World : Type}.
Variable requests_post : string -> Payload -> Z -> M World Response.
Variable console_print : Renderable -> Res unit.

(** The silent loop never raises, and the counters only enter it as
    offsets. *)
Lemma for_loop_counts q N c (Hwf : well_formed c) its :
  ∀ st w, ∃ st' dg dk w',
    0 <= dg ∧ 0 <= dk ∧
    ∀ g k, for_loop requests_post console_print q N false its st (set_counts c g k, w)
           = (Ret st', (set_counts c (g + dg) (k + dk), w')).
Proof.
  induction its as [|it rest IH]; intros st w.
  - exists st, 0, 0, w. split; [done|]. split; [done|].
    intros g k. by rewrite !Z.add_0_r.
  - set (ans := ask requests_post (generator c) (generator_prompt q it st) w).
    set (fb := ask requests_post (critic c) (critic_prompt q ans.1) ans.2).
    set (st1 := set_generator_output (set_iteration st (it + 1)) ans.1).
    destruct (it <? N - 1) eqn:Hlt;
      [destruct (convergence_detected fb.1) eqn:Hconv|].
    + exists (set_converged (set_critic_feedback st1 fb.1) true), 1, 1, fb.2.
      split; [done|]. split; [done|]. intros g k.
      cbn [for_loop]. unfold bind at 1.
      rewrite loop_body_spec by done. cbn zeta. rewrite Hlt.
      fold ans. fold fb. by rewrite Hconv.
    + destruct (IH (store_history N it (set_critic_feedback st1 fb.1)) fb.2)
        as (st' & dg & dk & w' & Hdg & Hdk & Heq).
      exists st', (1 + dg), (1 + dk), w'.
      split; [lia|]. split; [lia|]. intros g k.
      cbn [for_loop]. unfold bind at 1.
      rewrite loop_body_spec by done. cbn zeta. rewrite Hlt.
      fold ans. fold fb. rewrite Hconv, Heq. by rewrite !Z.add_assoc.
    + destruct (IH (store_history N it st1) ans.2)
        as (st' & dg & dk & w' & Hdg & Hdk & Heq).
      exists st', (1 + dg), dk, w'.
      split; [lia|]. split; [lia|]. intros g k.
      cbn [for_loop]. unfold bind at 1.
      rewrite loop_body_spec by done. cbn zeta. rewrite Hlt.
      fold ans. rewrite Heq. by rewrite !Z.add_assoc.
Qed.

Lemma run_counts q N c w :
  well_formed c →
  ∃ st' dg dk w',
    0 <= dg ∧ 0 <= dk ∧
    ∀ g k, run requests_post console_print q N false (set_counts c g k, w)
           = (Ret (result_dict st' (set_counts c (g + dg) (k + dk))),
              (set_counts c (g + dg) (k + dk), w')).
Proof.
  intros Hwf.
  destruct (for_loop_counts q N c Hwf (range N) (mkConversationState q N) w)
    as (st' & dg & dk & w' & Hdg & Hdk & Heq).
  exists st', dg, dk, w'. split; [done|]. split; [done|]. intros g k.
  rewrite run_silent. by rewrite Heq.
Qed.

Lemma run_total q N c w :
  well_formed c → ∃ r s', run requests_post console_print q N false (c, w) = (Ret r, s').
Proof.
  intros Hwf. destruct (run_counts q N c w Hwf) as (st' & dg & dk & w' & _ & _ & Heq).
  specialize (Heq (call_count (generator c)) (call_count (critic c))).
  rewrite set_counts_self in Heq. rewrite Heq. by eexists _, _.
Qed.

(** The shape of the loop state at the end of a run of at least one
    iteration. *)
Lemma run_shape q N c w :
  well_formed c → 1 <= N →
  ∃ st' g' k' w',
    run requests_post console_print q N false (c, w)
    = (Ret (result_dict st' (set_counts c g' k')), (set_counts c g' k', w'))
    ∧ ((exhausted N st' ∧ g' = call_count (generator c) + N
        ∧ k' = call_count (critic c) + (N - 1))
       ∨ (∃ j, 0 < j < N ∧ left_at j st'
               ∧ g' = call_count (generator c) + j
               ∧ k' = call_count (critic c) + j
               ∧ ∃ prompt w0,
                   critic_feedback st'
                   = (ask requests_post (critic c) prompt w0).1)).
Proof.
  intros Hwf HN.
  destruct (for_loop_spec requests_post console_print q N c Hwf (Z.to_nat (N - 1)) 0
              (mkConversationState q N)
              (call_count (generator c)) (call_count (critic c)) w)
    as (st' & g' & k' & w' & Heq & Hpost).
  { done. } { lia. } { repeat split; constructor. }
  rewrite set_counts_self in Heq.
  replace (Z.of_nat (S (Z.to_nat (N - 1)))) with N in Heq by lia.
  exists st', g', k', w'. split.
  - rewrite run_silent. unfold range. by rewrite Heq.
  - destruct Hpost as [(He & -> & ->)|(j & Hj & Hl & -> & -> & Hp)].
    + left. split; [done|]. lia.
    + right. exists j. split; [lia|]. split; [done|].
      split; [lia|]. split; [lia|]. exact Hp.
Qed.

End Run.

Section RunEdges.
Context {World : Type}.
Variable requests_post : string -> Payload -> Z -> M World Response.
Variable console_print : Renderable -> Res unit.

(** With no iteration to make, a run renders its opening panel and
    returns the initial state. *)
Lemma run_nonpositive_verbose q N v c w :
  N <= 0 →
  run requests_post console_print q N v (c, w)
  = match rendering console_print v (opening_panel q N) with
    | Raise e => (Raise e, (c, w))
    | Ret _ => (Ret (result_dict (mkConversationState q N) c), (c, w))
    end.
Proof.
  intros HN. rewrite run_verbose. unfold range. by rewrite seqZ_nil.
Qed.

Lemma run_nonpositive q N c w :
  N <= 0 →
  run requests_post console_print q N false (c, w)
  = (Ret (result_dict (mkConversationState q N) c), (c, w)).
Proof. intros HN. by rewrite run_nonpositive_verbose. Qed.

Lemma set_counts_twice c g k g' k' :
  set_counts (set_counts c g k) g' k' = set_counts c g' k'.
Proof. reflexivity. Qed.

(** The counters only enter the loop as offsets, its rendering
    included: from counters that stand [dg] and [dk] higher the loop ends
    the same way with counters that stand [dg] and [dk] higher. *)
Lemma for_loop_shift q N v c (Hwf : well_formed c) dg dk its :
  ∀ st g k w,
    for_loop requests_post console_print q N v its st
             (set_counts c (g + dg) (k + dk), w)
    = let out := for_loop requests_post console_print q N v its st
                          (set_counts c g k, w) in
      (out.1,
       (set_counts out.2.1 (call_count (generator out.2.1) + dg)
                   (call_count (critic out.2.1) + dk),
        out.2.2)).
Proof.
  induction its as [|it rest IH]; intros st g k w; [done|].
  rewrite !for_loop_cons_verbose by done. cbn zeta.
  destruct (rendering console_print v (generator_panel _)) as [[]|e].
  2:{ cbn [fst snd]. rewrite set_counts_twice.
      cbn [set_counts generator critic set_call_count call_count].
      by replace (g + dg + 1) with (g + 1 + dg) by lia. }
  destruct (it <? N - 1).
  2:{ replace (g + dg + 1) with (g + 1 + dg) by lia. by rewrite IH. }
  destruct (rendering console_print v (critic_panel _)) as [[]|e].
  2:{ cbn [fst snd]. rewrite set_counts_twice.
      cbn [set_counts generator critic set_call_count call_count].
      replace (g + dg + 1) with (g + 1 + dg) by lia.
      by replace (k + dk + 1) with (k + 1 + dk) by lia. }
  destruct (convergence_detected _).
  2:{ replace (g + dg + 1) with (g + 1 + dg) by lia.
      replace (k + dk + 1) with (k + 1 + dk) by lia. by rewrite IH. }
  destruct (rendering console_print v converged_line) as [[]|e];
    cbn [fst snd]; rewrite set_counts_twice;
    cbn [set_counts generator critic set_call_count call_count];
    replace (g + dg + 1) with (g + 1 + dg) by lia;
    by replace (k + dk + 1) with (k + 1 + dk) by lia.
Qed.

(** A run that returns from counters at [g + dg] and [k + dk] returns
    from counters at [g] and [k] too, with the same loop state, and its
    counters end [dg] and [dk] higher. *)
Lemma run_shift q N v c w g k dg dk r c' w' :
  well_formed c →
  run requests_post console_print q N v
      (set_counts c (g + dg) (k + dk), w) = (Ret r, (c', w')) →
  ∃ st c0,
    run requests_post console_print q N v (set_counts c g k, w)
    = (Ret (result_dict st c0), (c0, w'))
    ∧ r = result_dict st c'
    ∧ c' = set_counts c0 (call_count (generator c0) + dg)
                      (call_count (critic c0) + dk).
Proof.
  intros Hwf. rewrite !run_verbose.
  destruct (rendering console_print v (opening_panel q N)) as [[]|e];
    [|discriminate].
  rewrite for_loop_shift by done. cbn zeta.
  destruct (for_loop _ _ _ _ _ _ _ (set_counts c g k, w))
    as [[st|e] [c0 w0]]; cbn [fst snd]; [|discriminate].
  intros [= <- <- <-]. by exists st, c0.
Qed.

End RunEdges.

(** ** Recorded requests, equivalent backends and a failing backend *)

Section Recording.
Context {World : Type}.
Variable requests_post : string -> Payload -> Z -> M World Response.
Variable console_print : Renderable -> Res unit.

Lemma generate_recorded
    self prompt system model temperature stream w log :
  generate (recorded requests_post) self prompt system model temperature
           stream (w, log)
  = let got := generate requests_post self prompt system model temperature
                        stream w in
    (got.1,
     (got.2,
      log ++ [{| req_url := api_endpoint self;
                 req_json := {| p_model := model; p_prompt := prompt;
                                p_system := system; p_stream := stream;
                                p_temperature := temperature |};
                 req_timeout := 120 |}])).
Proof.
  unfold generate, try_except, bind, recorded, lift_res, ret.
  destruct (requests_post _ _ 120 w) as [[resp|e] w']; [|done].
  destruct (status_code resp =? 200); [|done].
  destruct (response_json resp) as [result|e]; [|done].
  destruct (json_get result "response" (JStr "")) as [text|e]; [|done].
  by destruct (json_strip text).
Qed.

Lemma ask_recorded a prompt w log :
  ask (recorded requests_post) a prompt (w, log)
  = ((ask requests_post a prompt w).1,
     ((ask requests_post a prompt w).2, log ++ [agent_request a prompt])).
Proof. unfold ask. by rewrite generate_recorded. Qed.

Lemma generator_prompt_request c q it st :
  generator_request c q
    (agent_request (generator c) (generator_prompt q it st)).
Proof.
  unfold generator_request, generator_prompt.
  destruct (_ || _); [by left|right]. by eexists _, _.
Qed.

Lemma for_loop_recorded q N c (Hwf : well_formed c) (m : nat) :
  ∀ i st g k w log,
    0 <= i → i + Z.of_nat (S m) = N →
    ∃ st' g' k' w' es,
      for_loop requests_post console_print q N false (seqZ i (Z.of_nat (S m))) st
               (set_counts c g k, w)
      = (Ret st', (set_counts c g' k', w'))
      ∧ for_loop (recorded requests_post) console_print q N false (seqZ i (Z.of_nat (S m))) st
                 (set_counts c g k, (w, log))
        = (Ret st', (set_counts c g' k', (w', log ++ es)))
      ∧ run_requests c q es
      ∧ Z.of_nat (length es) = (g' - g) + (k' - k).
Proof.
  induction m as [|m IH]; intros i st g k w log Hi HN.
  - change (seqZ i (Z.of_nat 1)) with [i].
    rewrite !for_loop_cons by done. cbn zeta.
    assert ((i <? N - 1) = false) as -> by (apply Z.ltb_ge; lia).
    rewrite ask_recorded. cbn [fst snd for_loop ret].
    eexists _, _, _, _, _. split; [reflexivity|]. split; [reflexivity|].
    split; [apply requests_last, generator_prompt_request|].
    cbn [length]. lia.
  - rewrite seqZ_cons by lia.
    replace (Z.pred (Z.of_nat (S (S m)))) with (Z.of_nat (S m)) by lia.
    rewrite !for_loop_cons by done. cbn zeta.
    assert ((i <? N - 1) = true) as -> by (apply Z.ltb_lt; lia).
    rewrite ask_recorded. cbn [fst snd]. rewrite ask_recorded. cbn [fst snd].
    set (ans := ask requests_post (generator c) (generator_prompt q i st) w).
    set (fb := ask requests_post (critic c) (critic_prompt q ans.1) ans.2).
    destruct (convergence_detected fb.1).
    + eexists _, _, _, _, _. split; [reflexivity|].
      split; [by rewrite <- app_assoc|]. cbn [app].
      split.
      * apply requests_pair;
          [apply generator_prompt_request|by eexists|constructor].
      * cbn [length app]. lia.
    + destruct (IH (Z.succ i)
                  (store_history N i
                     (set_critic_feedback
                        (set_generator_output (set_iteration st (i + 1)) ans.1)
                        fb.1))
                  (g + 1) (k + 1) fb.2
                  ((log ++ [agent_request (generator c) (generator_prompt q i st)])
                   ++ [agent_request (critic c) (critic_prompt q ans.1)])
                  ltac:(lia) ltac:(lia))
        as (st' & g' & k' & w' & es & H1 & H2 & Hes & Hlen).
      exists st', g', k', w',
        (agent_request (generator c) (generator_prompt q i st)
         :: agent_request (critic c) (critic_prompt q ans.1) :: es).
      split; [exact H1|]. split.
      * rewrite H2. by rewrite <- !app_assoc.
      * split; [|cbn [length]; lia].
        apply requests_pair; [apply generator_prompt_request|by eexists|done].
Qed.

Lemma run_recorded q N c w log :
  well_formed c →
  ∃ r c' w' es,
    run requests_post console_print q N false (c, w) = (Ret r, (c', w'))
    ∧ run (recorded requests_post) console_print q N false (c, (w, log))
      = (Ret r, (c', (w', log ++ es)))
    ∧ run_requests c q es
    ∧ Z.of_nat (length es)
      = (res_generator_calls r - call_count (generator c))
        + (res_critic_calls r - call_count (critic c)).
Proof.
  intros Hwf. destruct (Z.le_gt_cases N 0) as [HN|HN].
  - rewrite !run_nonpositive by done.
    eexists _, _, _, []. split; [reflexivity|].
    split; [by rewrite app_nil_r|]. split; [constructor|].
    cbn [length result_dict res_generator_calls res_critic_calls]. lia.
  - destruct (for_loop_recorded q N c Hwf (Z.to_nat (N - 1)) 0
                (mkConversationState q N)
                (call_count (generator c)) (call_count (critic c)) w log)
      as (st' & g' & k' & w' & es & H1 & H2 & Hes & Hlen); [done|lia|].
    rewrite set_counts_self in H1, H2.
    replace (Z.of_nat (S (Z.to_nat (N - 1)))) with N in H1, H2 by lia.
    exists (result_dict st' (set_counts c g' k')), (set_counts c g' k'), w', es.
    rewrite !run_silent. unfold range. rewrite H1, H2. by repeat split.
Qed.

Lemma prompt_carries_query_first q : str_in q (first_call_prompt q) = true.
Proof.
  apply str_in_spec. unfold first_call_prompt.
  exists "User Query: ". eexists. reflexivity.
Qed.

Lemma prompt_carries_query_improvement q a f :
  str_in q (improvement_prompt q a f) = true.
Proof.
  apply str_in_spec. unfold improvement_prompt.
  exists "Original Query: ". eexists. reflexivity.
Qed.

Lemma prompt_carries_query_critic q a : str_in q (critic_prompt q a) = true.
Proof.
  apply str_in_spec. unfold critic_prompt.
  exists "Original Query: ". eexists. reflexivity.
Qed.

Lemma run_requests_each c q es :
  run_requests c q es →
  Forall (λ r, (generator_request c q r ∨ critic_request c q r)
               ∧ str_in q (p_prompt (req_json r)) = true
               ∧ p_stream (req_json r) = false ∧ req_timeout r = 120) es.
Proof.
  assert (∀ r, generator_request c q r →
               str_in q (p_prompt (req_json r)) = true
               ∧ p_stream (req_json r) = false ∧ req_timeout r = 120) as Hg.
  { intros r [->|(a & f & ->)]; cbn; (split; [|done]).
    - apply prompt_carries_query_first.
    - apply prompt_carries_query_improvement. }
  assert (∀ r, critic_request c q r →
               str_in q (p_prompt (req_json r)) = true
               ∧ p_stream (req_json r) = false ∧ req_timeout r = 120) as Hc.
  { intros r (a & ->); cbn. split; [|done]. apply prompt_carries_query_critic. }
  induction 1 as [|r Hr|r1 r2 rest H1 H2 _ IH].
  - constructor.
  - apply Forall_singleton. cbv beta. split; [by left|by apply Hg].
  - apply Forall_cons. split; [split; [by left|by apply Hg]|].
    apply Forall_cons. split; [split; [by right|by apply Hc]|done].
Qed.

(** Recording is transparent, rendering included: over the recording
    backend the loop ends the same way, and the log grows by one request
    per call counted. *)
Lemma for_loop_recorded_twin q N v c (Hwf : well_formed c) its :
  ∀ st g k w log,
    ∃ res g' k' w' es,
      for_loop requests_post console_print q N v its st (set_counts c g k, w)
      = (res, (set_counts c g' k', w'))
      ∧ for_loop (recorded requests_post) console_print q N v its st
                 (set_counts c g k, (w, log))
        = (res, (set_counts c g' k', (w', log ++ es)))
      ∧ Z.of_nat (length es) = (g' - g) + (k' - k)
      ∧ Forall (λ r, generator_request c q r ∨ critic_request c q r) es.
Proof.
  induction its as [|it rest IH]; intros st g k w log.
  - exists (Ret st), g, k, w, []. rewrite app_nil_r. cbn [length].
    split; [done|]. split; [done|]. split; [lia|constructor].
  - rewrite !for_loop_cons_verbose by done. cbn zeta.
    rewrite ask_recorded. cbn [fst snd].
    set (ans := ask requests_post (generator c) (generator_prompt q it st) w).
    set (gr := agent_request (generator c) (generator_prompt q it st)).
    assert (generator_request c q gr ∨ critic_request c q gr) as Hgr
      by (left; apply generator_prompt_request).
    destruct (rendering console_print v (generator_panel _)) as [[]|e].
    2:{ eexists _, _, _, _, [gr]. split; [reflexivity|].
        split; [reflexivity|]. cbn [length]. split; [lia|].
        by apply Forall_singleton. }
    destruct (it <? N - 1).
    2:{ destruct (IH (store_history N it
                        (set_generator_output (set_iteration st (it + 1)) ans.1))
                     (g + 1) k ans.2 (log ++ [gr]))
          as (res & g' & k' & w' & es & H1 & H2 & Hlen & Hes).
        exists res, g', k', w', (gr :: es). split; [exact H1|].
        split; [rewrite H2; by rewrite <- app_assoc|]. cbn [length].
        split; [lia|]. by apply Forall_cons. }
    rewrite ask_recorded. cbn [fst snd].
    set (fb := ask requests_post (critic c) (critic_prompt q ans.1) ans.2).
    set (cr := agent_request (critic c) (critic_prompt q ans.1)).
    assert (generator_request c q cr ∨ critic_request c q cr) as Hcr
      by (right; by eexists).
    assert (Forall (λ r, generator_request c q r ∨ critic_request c q r)
                   [gr; cr]) as Hpair
      by (by repeat (apply Forall_cons; split)).
    destruct (rendering console_print v (critic_panel _)) as [[]|e].
    2:{ eexists _, _, _, _, [gr; cr]. split; [reflexivity|].
        split; [by rewrite <- app_assoc|]. cbn [length]. split; [lia|done]. }
    destruct (convergence_detected fb.1).
    + destruct (rendering console_print v converged_line) as [[]|e];
        (eexists _, _, _, _, [gr; cr]; split; [reflexivity|];
         split; [by rewrite <- app_assoc|]; cbn [length];
         split; [lia|done]).
    + destruct (IH (store_history N it
                      (set_critic_feedback
                         (set_generator_output (set_iteration st (it + 1)) ans.1)
                         fb.1))
                   (g + 1) (k + 1) fb.2 ((log ++ [gr]) ++ [cr]))
        as (res & g' & k' & w' & es & H1 & H2 & Hlen & Hes).
      exists res, g', k', w', (gr :: cr :: es). split; [exact H1|].
      split; [rewrite H2; by rewrite <- !app_assoc|]. cbn [length].
      split; [lia|]. by repeat (apply Forall_cons; split).
Qed.

Lemma run_recorded_twin q N v c w log :
  well_formed c →
  ∃ res c' w' es,
    run requests_post console_print q N v (c, w) = (res, (c', w'))
    ∧ run (recorded requests_post) console_print q N v (c, (w, log))
      = (res, (c', (w', log ++ es)))
    ∧ Z.of_nat (length es)
      = (call_count (generator c') - call_count (generator c))
        + (call_count (critic c') - call_count (critic c))
    ∧ Forall (λ r, generator_request c q r ∨ critic_request c q r) es
    ∧ ∀ r, res = Ret r →
           res_generator_calls r = call_count (generator c')
           ∧ res_critic_calls r = call_count (critic c').
Proof.
  intros Hwf. rewrite !run_verbose.
  destruct (rendering console_print v (opening_panel q N)) as [[]|e].
  2:{ exists (Raise e), c, w, []. rewrite app_nil_r. cbn [length].
      split; [done|]. split; [done|]. split; [lia|].
      split; [constructor|discriminate]. }
  destruct (for_loop_recorded_twin q N v c Hwf (range N)
              (mkConversationState q N)
              (call_count (generator c)) (call_count (critic c)) w log)
    as (res & g' & k' & w' & es & H1 & H2 & Hlen & Hes).
  rewrite set_counts_self in H1, H2. rewrite H1, H2.
  destruct res as [st|e].
  - eexists _, _, _, es. split; [reflexivity|]. split; [reflexivity|].
    cbn [set_counts generator critic set_call_count call_count].
    split; [exact Hlen|]. split; [exact Hes|]. by intros r [= <-].
  - eexists _, _, _, es. split; [reflexivity|]. split; [reflexivity|].
    cbn [set_counts generator critic set_call_count call_count].
    split; [exact Hlen|]. split; [exact Hes|]. discriminate.
Qed.

End Recording.

Section Simulation.
Context {W1 W2 : Type}.
Variable post1 : string -> Payload -> Z -> M W1 Response.
Variable post2 : string -> Payload -> Z -> M W2 Response.
Variable console_print : Renderable -> Res unit.
Variable R : W1 -> W2 -> Prop.
Hypothesis same_text :
  ∀ self prompt system model temperature w1 w2, R w1 w2 →
    (generate post1 self prompt system model temperature false w1).1
    = (generate post2 self prompt system model temperature false w2).1
    ∧ R (generate post1 self prompt system model temperature false w1).2
        (generate post2 self prompt system model temperature false w2).2.

Lemma ask_sim a prompt w1 w2 :
  R w1 w2 →
  (ask post1 a prompt w1).1 = (ask post2 a prompt w2).1
  ∧ R (ask post1 a prompt w1).2 (ask post2 a prompt w2).2.
Proof. intros HR. unfold ask. by apply same_text. Qed.

(** Two backends that give the same texts make the loop end the same
    way, with a result or with an exception of the console. *)
Lemma for_loop_sim q N v c (Hwf : well_formed c) its :
  ∀ st g k w1 w2, R w1 w2 →
    ∃ res g' k' w1' w2',
      for_loop post1 console_print q N v its st (set_counts c g k, w1)
      = (res, (set_counts c g' k', w1'))
      ∧ for_loop post2 console_print q N v its st (set_counts c g k, w2)
        = (res, (set_counts c g' k', w2'))
      ∧ R w1' w2'.
Proof.
  induction its as [|it rest IH]; intros st g k w1 w2 HR.
  - by exists (Ret st), g, k, w1, w2.
  - rewrite !for_loop_cons_verbose by done. cbn zeta.
    destruct (ask_sim (generator c) (generator_prompt q it st) w1 w2 HR)
      as [Ha HRa].
    set (ans1 := ask post1 (generator c) (generator_prompt q it st) w1) in *.
    set (ans2 := ask post2 (generator c) (generator_prompt q it st) w2) in *.
    rewrite <- Ha.
    destruct (rendering console_print v (generator_panel _)) as [[]|e];
      [|by eexists _, _, _, _, _].
    destruct (it <? N - 1); [|by apply IH].
    destruct (ask_sim (critic c) (critic_prompt q ans1.1) ans1.2 ans2.2 HRa)
      as [Hf HRf].
    set (fb1 := ask post1 (critic c) (critic_prompt q ans1.1) ans1.2) in *.
    set (fb2 := ask post2 (critic c) (critic_prompt q ans1.1) ans2.2) in *.
    rewrite <- Hf.
    destruct (rendering console_print v (critic_panel _)) as [[]|e];
      [|by eexists _, _, _, _, _].
    destruct (convergence_detected fb1.1); [|by apply IH].
    destruct (rendering console_print v converged_line) as [[]|e];
      by eexists _, _, _, _, _.
Qed.

Lemma run_sim q N v c w1 w2 :
  well_formed c → R w1 w2 →
  ∃ res c' w1' w2',
    run post1 console_print q N v (c, w1) = (res, (c', w1'))
    ∧ run post2 console_print q N v (c, w2) = (res, (c', w2'))
    ∧ R w1' w2'.
Proof.
  intros Hwf HR. rewrite !run_verbose.
  destruct (rendering console_print v (opening_panel q N)) as [[]|e];
    [|by exists (Raise e), c, w1, w2].
  destruct (for_loop_sim q N v c Hwf (range N) (mkConversationState q N)
              (call_count (generator c)) (call_count (critic c)) w1 w2 HR)
    as (res & g' & k' & w1' & w2' & H1 & H2 & HR').
  rewrite set_counts_self in H1, H2. rewrite H1, H2.
  destruct res as [st|e]; by eexists _, _, _, _.
Qed.

End Simulation.

Section FailingBackend.
Context {World : Type}.
Variable requests_post : string -> Payload -> Z -> M World Response.
Variable console_print : Renderable -> Res unit.
Variable outcome : Res Response.
Hypothesis outcome_failed : failed outcome.
Hypothesis every_request_fails :
  ∀ url payload timeout w, (requests_post url payload timeout w).1 = outcome.

Lemma generate_failed self prompt system model temperature stream w :
  (generate requests_post self prompt system model temperature stream w).1
  = error_text outcome.
Proof.
  pose proof outcome_failed as Hf.
  rewrite <- (every_request_fails (api_endpoint self)
                {| p_model := model; p_prompt := prompt; p_system := system;
                   p_stream := stream; p_temperature := temperature |}
                120 w) in Hf |- *.
  destruct (requests_post _ _ 120 w) as [[resp|e] w'] eqn:Hsent.
  - rewrite (generate_response _ _ _ _ _ _ _ _ _ _ Hsent).
    cbn [fst failed error_text] in *.
    apply Z.eqb_neq in Hf. by rewrite Hf.
  - by rewrite (generate_raise _ _ _ _ _ _ _ _ _ _ Hsent).
Qed.

Lemma ask_failed a prompt w :
  (ask requests_post a prompt w).1 = error_text outcome.
Proof. apply generate_failed. Qed.

Lemma error_text_truthy : str_truthy (error_text outcome) = true.
Proof. by destruct outcome. Qed.

(** The loop over a backend whose every request fails the same way, the
    error text not holding the convergence marker: every answer and every
    critique is the error text, and it is sent back in every later
    prompt. *)
Lemma for_loop_failing q N c (Hwf : well_formed c)
    (Hconv : convergence_detected (error_text outcome) = false) (m : nat) :
  ∀ i st g k w log,
    0 <= i → i + Z.of_nat (S m) = N →
    ∃ st' g' k' w' es,
      for_loop (recorded requests_post) console_print q N false
               (seqZ i (Z.of_nat (S m))) st (set_counts c g k, (w, log))
      = (Ret st', (set_counts c g' k', (w', log ++ es)))
      ∧ (λ r, p_prompt (req_json r)) <$> es
        = generator_prompt q i st
          :: concat (replicate m
                       [critic_prompt q (error_text outcome);
                        improvement_prompt q (error_text outcome)
                                           (error_text outcome)])
      ∧ converged st' = converged st ∧ iteration st' = N
      ∧ generator_output st' = error_text outcome
      ∧ history st'
        = history st
          ++ ((λ j, {| entry_iteration := j;
                       entry_generator_output := error_text outcome;
                       entry_critic_feedback :=
                         if j <? N then Some (error_text outcome) else None |})
              <$> seqZ (i + 1) (Z.of_nat (S m))).
Proof.
  induction m as [|m IH]; intros i st g k w log Hi HN.
  - change (seqZ i (Z.of_nat 1)) with [i].
    rewrite for_loop_cons by done. cbn zeta.
    assert ((i <? N - 1) = false) as Hlt by (apply Z.ltb_ge; lia).
    rewrite Hlt. rewrite ask_recorded. cbn [fst snd for_loop ret].
    eexists _, _, _, _, _. split; [reflexivity|].
    split; [reflexivity|].
    unfold store_history. rewrite Hlt.
    cbn [converged iteration generator_output history history_append
         set_generator_output set_iteration].
    rewrite ask_failed. split; [done|]. split; [lia|]. split; [done|].
    change (seqZ (i + 1) (Z.of_nat 1)) with [i + 1].
    cbn [fmap list_fmap].
    assert ((i + 1 <? N) = false) as -> by (apply Z.ltb_ge; lia).
    done.
  - rewrite seqZ_cons by lia.
    replace (Z.pred (Z.of_nat (S (S m)))) with (Z.of_nat (S m)) by lia.
    rewrite for_loop_cons by done. cbn zeta.
    assert ((i <? N - 1) = true) as Hlt by (apply Z.ltb_lt; lia).
    rewrite Hlt. rewrite ask_recorded. cbn [fst snd].
    rewrite ask_recorded. cbn [fst snd].
    rewrite !ask_failed, Hconv.
    set (gr := agent_request (generator c) (generator_prompt q i st)).
    set (cr := agent_request (critic c) (critic_prompt q (error_text outcome))).
    set (st2 := store_history N i _).
    destruct (IH (Z.succ i) st2 (g + 1) (k + 1)
                 (ask requests_post (critic c)
                      (critic_prompt q (error_text outcome))
                      (ask requests_post (generator c)
                           (generator_prompt q i st) w).2).2
                 ((log ++ [gr]) ++ [cr]) ltac:(lia) ltac:(lia))
      as (st' & g' & k' & w' & es & Hrun & Hes & Hc & Hit & Hout & Hh).
    exists st', g', k', w', (gr :: cr :: es).
    split; [rewrite Hrun; by rewrite <- !app_assoc|].
    split.
    { cbn [fmap list_fmap]. rewrite Hes.
      cbn [replicate concat app gr cr agent_request req_json p_prompt].
      do 2 f_equal.
      unfold generator_prompt, st2, store_history.
      cbn [critic_feedback generator_output history_append
           set_critic_feedback set_generator_output set_iteration].
      rewrite error_text_truthy.
      assert ((Z.succ i =? 0) = false) as -> by (apply Z.eqb_neq; lia).
      done. }
    split; [by rewrite Hc|]. split; [done|]. split; [done|].
    rewrite Hh. unfold st2, store_history. rewrite Hlt.
    cbn [history history_append set_critic_feedback set_generator_output
         set_iteration iteration generator_output critic_feedback].
    rewrite <- app_assoc. f_equal.
    rewrite (seqZ_cons (i + 1)) by lia.
    replace (Z.pred (Z.of_nat (S (S m)))) with (Z.of_nat (S m)) by lia.
    cbn [fmap list_fmap app].
    assert ((i + 1 <? N) = true) as -> by (apply Z.ltb_lt; lia).
    by replace (Z.succ i + 1) with (Z.succ (i + 1)) by lia.
Qed.

(** The run over such a backend: the error text is the final response and
    the answer of every history entry, it is the feedback of every entry
    but the last, and the prompts sent are the first-call prompt followed,
    by turns, by the critic prompt for the error text and the improvement
    prompt built from it. *)
Lemma run_failing q N c w log :
  well_formed c → convergence_detected (error_text outcome) = false →
  1 <= N →
  ∃ r c' w' es,
    run (recorded requests_post) console_print q N false (c, (w, log))
    = (Ret r, (c', (w', log ++ es)))
    ∧ (λ r, p_prompt (req_json r)) <$> es
      = prompts_when_every_reply_is q (error_text outcome) (Z.to_nat N)
    ∧ res_final_response r = error_text outcome
    ∧ res_converged r = false ∧ res_iterations r = N
    ∧ res_history r
      = (λ j, {| entry_iteration := j;
                 entry_generator_output := error_text outcome;
                 entry_critic_feedback :=
                   if j <? N then Some (error_text outcome) else None |})
        <$> seqZ 1 N.
Proof.
  intros Hwf Hconv HN.
  destruct (for_loop_failing q N c Hwf Hconv (Z.to_nat (N - 1)) 0
              (mkConversationState q N)
              (call_count (generator c)) (call_count (critic c)) w log)
    as (st' & g' & k' & w' & es & Hrun & Hes & Hc & Hit & Hout & Hh);
    [done|lia|].
  rewrite set_counts_self in Hrun.
  replace (Z.of_nat (S (Z.to_nat (N - 1)))) with N in Hrun, Hh by lia.
  exists (result_dict st' (set_counts c g' k')), (set_counts c g' k'), w', es.
  split; [rewrite run_silent; unfold range; by rewrite Hrun|].
  split.
  { rewrite Hes. replace (Z.to_nat N) with (S (Z.to_nat (N - 1))) by lia.
    done. }
  cbn [result_dict res_final_response res_converged res_iterations
       res_history].
  split; [done|]. split; [by rewrite Hc|]. split; [done|]. by rewrite Hh.
Qed.

End FailingBackend.

(** ** What a run returns *)

Section RunOutcomes.
Context {World : Type}.
Variable requests_post : string -> Payload -> Z -> M World Response.
Variable console_print : Renderable -> Res unit.

Lemma run_returns_when_quiet q N v c w :
  well_formed c → renders_quietly console_print v →
  ∃ r s', run requests_post console_print q N v (c, w) = (Ret r, s').
Proof.
  intros Hwf Hquiet. rewrite run_quiet_console by done.
  by apply run_total.
Qed.

(** A run of one iteration, step by step: the opening panel, the
    generator's call, its panel, and no critic. *)
Lemma run_single_verbose cl q v w :
  run requests_post console_print q 1 v (DualAgentCoordinator_init cl, w)
  = let c := DualAgentCoordinator_init cl in
    match rendering console_print v (opening_panel q 1) with
    | Raise e => (Raise e, (c, w))
    | Ret _ =>
        let ans := ask requests_post (generator c) (first_call_prompt q) w in
        let st1 := set_generator_output
                     (set_iteration (mkConversationState q 1) 1) ans.1 in
        match rendering console_print v (generator_panel st1) with
        | Raise e => (Raise e, (set_counts c 1 0, ans.2))
        | Ret _ => (Ret (result_dict (store_history 1 0 st1) (set_counts c 1 0)),
                    (set_counts c 1 0, ans.2))
        end
    end.
Proof.
  rewrite run_verbose. cbn zeta.
  destruct (rendering console_print v (opening_panel q 1)) as [[]|e]; [|done].
  unfold range. change (seqZ 0 1) with [0].
  change (DualAgentCoordinator_init cl)
    with (set_counts (DualAgentCoordinator_init cl) 0 0) at 1.
  rewrite for_loop_cons_verbose by apply well_formed_init. cbn zeta.
  change (0 <? 1 - 1) with false. cbv iota.
  change (generator_prompt q 0 (mkConversationState q 1))
    with (first_call_prompt q).
  by destruct (rendering console_print v (generator_panel _)) as [[]|e].
Qed.

(** A run with [max_iterations = 1] on a fresh orchestrator never calls
    the critic.  It returns whenever [verbose] is false or the console
    accepts the texts it is given, and every such run that returns gives
    [iterations = 1], [converged = false], a history of exactly one entry
    whose feedback is absent, a critic counter of 0 and the answer to the
    generator's first-call prompt, the only request made.  A run that
    raises instead raises an exception of the console, in verbose mode,
    with the critic's counter still at 0. *)
Lemma run_single_iteration cl q v w :
  (renders_quietly console_print v →
     ∃ r s',
       run requests_post console_print q 1 v (DualAgentCoordinator_init cl, w)
       = (Ret r, s'))
  ∧ (∀ r c' w',
       run requests_post console_print q 1 v (DualAgentCoordinator_init cl, w)
       = (Ret r, (c', w')) →
       res_iterations r = 1 ∧ res_converged r = false
       ∧ res_history r
         = [{| entry_iteration := 1;
               entry_generator_output := res_final_response r;
               entry_critic_feedback := None |}]
       ∧ res_critic_calls r = 0 ∧ call_count (critic c') = 0
       ∧ res_generator_calls r = 1
       ∧ (res_final_response r, w')
         = ask requests_post (generator (DualAgentCoordinator_init cl))
               (first_call_prompt q) w)
  ∧ (∀ e c' w',
       run requests_post console_print q 1 v (DualAgentCoordinator_init cl, w)
       = (Raise e, (c', w')) →
       v = true ∧ (∃ x, console_print x = Raise e)
       ∧ call_count (critic c') = 0).
Proof.
  split; [|split].
  - intros Hquiet. apply run_returns_when_quiet; [apply well_formed_init|done].
  - intros r c' w'. rewrite run_single_verbose. cbn zeta.
    destruct (rendering console_print v (opening_panel q 1)) as [[]|e];
      [|discriminate].
    destruct (rendering console_print v (generator_panel _)) as [[]|e];
      [|discriminate].
    intros [= <- <- <-]. unfold store_history.
    change (0 <? 1 - 1) with false. repeat split.
    by destruct (ask _ _ _ _).
  - intros e c' w' Hrun.
    destruct (run_raises_from_console _ _ _ _ _ _ _ _ _
                (well_formed_init cl) Hrun) as [Hv Hx].
    split; [done|]. split; [done|].
    rewrite run_single_verbose in Hrun. cbn zeta in Hrun.
    destruct (rendering console_print v (opening_panel q 1)) as [[]|e1].
    + destruct (rendering console_print v (generator_panel _)) as [[]|e2];
        [discriminate|].
      by injection Hrun as _ <- _.
    + by injection Hrun as _ <- _.
Qed.

(** With [max_iterations = N > 1] and a critic whose feedback never
    contains the convergence marker, a run returns whenever [verbose] is
    false or the console accepts the texts it is given, and every run that
    returns has made exactly [N] generator calls and [N - 1] critic calls
    and reports [converged = false] and a history of [N] entries, the
    first [N - 1] with feedback and the last without. *)
Lemma run_without_marker q N v c w :
  well_formed c → 1 < N →
  (∀ prompt w0,
     convergence_detected (ask requests_post (critic c) prompt w0).1 = false) →
  (renders_quietly console_print v →
     ∃ r s', run requests_post console_print q N v (c, w) = (Ret r, s'))
  ∧ ∀ r c' w',
      run requests_post console_print q N v (c, w) = (Ret r, (c', w')) →
      call_count (generator c') = call_count (generator c) + N
      ∧ call_count (critic c') = call_count (critic c) + (N - 1)
      ∧ res_generator_calls r = call_count (generator c')
      ∧ res_critic_calls r = call_count (critic c')
      ∧ res_converged r = false ∧ res_iterations r = N
      ∧ Z.of_nat (length (res_history r)) = N
      ∧ ∃ h last, res_history r = h ++ [last]
          ∧ Z.of_nat (length h) = N - 1
          ∧ Forall feedback_present h
          ∧ entry_critic_feedback last = None.
Proof.
  intros Hwf HN Hnever. split; [by apply run_returns_when_quiet|].
  intros r c' w' Hrun. apply run_returns_silent in Hrun; [|done].
  destruct (run_shape requests_post console_print q N c w Hwf ltac:(lia))
    as (st' & g' & k' & w0 & Heq & Hpost).
  rewrite Heq in Hrun. injection Hrun as <- <- <-.
  destruct Hpost as [((Hc & Hi & Hn & h & last & Hh & Hl & Hf & Hlast & _) & -> & ->)
                    |(j & _ & (_ & _ & Hm & _) & _ & _ & prompt & w1 & Hfb)].
  - cbn [result_dict set_counts generator critic set_call_count call_count
         res_generator_calls res_critic_calls res_converged res_iterations
         res_history].
    repeat (split; [done|]). split.
    + rewrite Hh, length_app. simpl. lia.
    + by exists h, last.
  - rewrite Hfb, Hnever in Hm. discriminate.
Qed.

(** C2 (amended): at the end of every run that returns, the iteration
    counter lies between 0 and [max_iterations], and is at least 1 when
    [max_iterations] is, and the history entries are numbered 1, 2, ... in
    order; when the run did not converge the history has one entry per
    iteration and the last entry, and no other, lacks feedback; when it
    converged it stopped before [max_iterations] and every stored entry
    has its feedback.  A run returns whenever [verbose] is false or the
    console accepts the texts it is given. *)
Theorem run_state_invariant q N v c w :
  well_formed c →
  (renders_quietly console_print v →
     ∃ r s', run requests_post console_print q N v (c, w) = (Ret r, s'))
  ∧ ∀ r s',
      run requests_post console_print q N v (c, w) = (Ret r, s') →
      0 <= res_iterations r <= Z.max 0 N
      ∧ (1 <= N → 1 <= res_iterations r)
      ∧ numbered (res_history r)
      ∧ (res_converged r = false →
           res_iterations r = Z.max 0 N
           ∧ Z.of_nat (length (res_history r)) = res_iterations r
           ∧ (1 <= N →
                ∃ h last, res_history r = h ++ [last]
                  ∧ Forall feedback_present h
                  ∧ entry_critic_feedback last = None))
      ∧ (res_converged r = true →
           res_iterations r < N
           ∧ Forall feedback_present (res_history r)).
Proof.
  intros Hwf. split; [by apply run_returns_when_quiet|].
  intros r s' Hrun. apply run_returns_silent in Hrun; [|done].
  destruct (Z.le_gt_cases N 0) as [HN|HN].
  - rewrite run_nonpositive in Hrun by done. injection Hrun as <- _.
    cbn [result_dict mkConversationState iteration converged history
         res_iterations res_converged res_history].
    split; [lia|]. split; [lia|]. split; [done|].
    split; [|discriminate]. intros _. cbn [length]. split; [lia|].
    split; [done|]. lia.
  - destruct (run_shape requests_post console_print q N c w Hwf ltac:(lia))
      as (st' & g' & k' & w' & Heq & Hpost).
    rewrite Heq in Hrun. injection Hrun as <- _.
    cbn [result_dict res_converged res_iterations res_history].
    destruct Hpost as [((Hc & Hi & Hn & h & last & Hh & Hl & Hf & Hlast & _) & _)
                      |(j & Hj & (Hc & Hi & _ & Hn & Hf & _) & _)].
    + split; [lia|]. split; [lia|]. split; [done|].
      split; [|by rewrite Hc].
      intros _. split; [lia|]. split.
      * rewrite Hh, length_app. simpl. lia.
      * intros _. by exists h, last.
    + split; [lia|]. split; [lia|]. split; [done|].
      split; [by rewrite Hc|].
      intros _. split; [lia|done].
Qed.

End RunOutcomes.

Section AgentContracts.
Context {World : Type}.
Variable requests_post : string -> Payload -> Z -> M World Response.
Variable console_print : Renderable -> Res unit.

(** C8: every [process] call adds one to the agent's counter, also when it
    raises; [run] reports the counters as they stand and never resets
    them, so when a second run on the same orchestrator returns, it
    reports the calls of the first run plus its own (its own being what a
    fresh orchestrator reports from the same backend state), all else
    being equal. *)
Theorem call_counters_are_lifetime cl q1 N1 v1 q2 N2 v2 w r1 c1 w1 r2 c2 w2 :
  run requests_post console_print q1 N1 v1 (DualAgentCoordinator_init cl, w)
  = (Ret r1, (c1, w1)) →
  run requests_post console_print q2 N2 v2 (c1, w1) = (Ret r2, (c2, w2)) →
  (∀ a input context w0,
     call_count (process requests_post input context (a, w0)).2.1
     = call_count a + 1)
  ∧ res_generator_calls r1 = call_count (generator c1)
  ∧ res_critic_calls r1 = call_count (critic c1)
  ∧ res_generator_calls r2 = call_count (generator c2)
  ∧ res_critic_calls r2 = call_count (critic c2)
  ∧ ∃ r2' c2',
      run requests_post console_print q2 N2 v2 (DualAgentCoordinator_init cl, w1)
      = (Ret r2', (c2', w2))
      ∧ res_generator_calls r2 = res_generator_calls r1 + res_generator_calls r2'
      ∧ res_critic_calls r2 = res_critic_calls r1 + res_critic_calls r2'
      ∧ res_final_response r2 = res_final_response r2'
      ∧ res_iterations r2 = res_iterations r2'
      ∧ res_converged r2 = res_converged r2'
      ∧ res_history r2 = res_history r2'.
Proof.
  intros H1 H2. split.
  { intros a input context w0. unfold process.
    destruct (build_prompt _ _ _); [|done].
    by destruct (generate _ _ _ _ _ _ _ _). }
  set (c0 := DualAgentCoordinator_init cl) in *.
  pose proof (well_formed_init cl) as Hwf. fold c0 in Hwf.
  apply run_returns_silent in H1; [|done].
  destruct (run_counts requests_post console_print q1 N1 c0 w Hwf)
    as (st1 & dg1 & dk1 & w1' & _ & _ & Hc1).
  specialize (Hc1 0 0). change (set_counts c0 0 0) with c0 in Hc1.
  rewrite Hc1 in H1. injection H1 as <- <- <-.
  destruct (run_shift requests_post console_print q2 N2 v2 c0 w1' 0 0
              (0 + dg1) (0 + dk1) r2 c2 w2 Hwf H2)
    as (st2 & c2' & Hfresh & -> & ->).
  cbn [result_dict set_counts generator critic set_call_count call_count
       res_generator_calls res_critic_calls].
  repeat (split; [done|]).
  exists (result_dict st2 c2'), c2'. split; [exact Hfresh|].
  cbn [result_dict res_generator_calls res_critic_calls res_final_response
       res_iterations res_converged res_history].
  repeat split; lia.
Qed.


(** C10: on an agent whose role is CRITIC, [process] with no context raises
    a [TypeError] and with a context lacking ['query'] raises a [KeyError],
    in both cases after counting the call and without any backend request;
    with the context the orchestrator always passes, the query alone, it
    returns text.  So the critic phase and the run raise nothing of their
    own: they return whenever [verbose] is false or the console accepts
    the texts it is given, and an exception they raise is one the console
    raised in verbose mode. *)
Theorem critic_needs_query_context a input w :
  role (config a) = CRITIC →
  process requests_post input None (a, w)
  = (Raise (TypeError "'NoneType' object is not subscriptable"), (bump a, w))
  ∧ (∀ d : gmap string string, d !! "query" = None →
       process requests_post input (Some d) (a, w)
       = (Raise (KeyError "query"), (bump a, w)))
  ∧ (∀ q, critic_context q !! "query" = Some q
          ∧ ∃ text w',
              process requests_post input (Some (critic_context q)) (a, w)
              = (Ret text, (bump a, w')))
  ∧ (∀ q N v it st c w0, well_formed c →
       (renders_quietly console_print v →
          ∃ out s',
            critic_phase requests_post console_print q N v it st (c, w0)
            = (Ret out, s'))
       ∧ (∀ e s',
            critic_phase requests_post console_print q N v it st (c, w0)
            = (Raise e, s') →
            v = true ∧ ∃ x, console_print x = Raise e))
  ∧ (∀ q N v c w0, well_formed c →
       (renders_quietly console_print v →
          ∃ r s', run requests_post console_print q N v (c, w0) = (Ret r, s'))
       ∧ (∀ e s',
            run requests_post console_print q N v (c, w0) = (Raise e, s') →
            v = true ∧ ∃ x, console_print x = Raise e)).
Proof.
  intros Hrole. split; [|split; [|split; [|split]]].
  - apply process_raise. by rewrite Hrole.
  - intros d Hd. apply process_raise. rewrite Hrole. cbn. by rewrite Hd.
  - intros q. split; [apply lookup_insert_eq|].
    eexists _, _. apply process_ok. rewrite Hrole. apply build_prompt_critic.
  - intros q N v it st c w0 Hwf. rewrite <- (set_counts_self c).
    rewrite critic_phase_verbose by done.
    assert (∀ x e, rendering console_print v x = Raise e →
                   v = true ∧ ∃ x, console_print x = Raise e) as Hr.
    { intros x e. unfold rendering. destruct v; [|discriminate]. by eauto. }
    split.
    + intros Hquiet.
      assert (∀ x, rendering console_print v x = Ret tt) as Hq.
      { intros x. unfold rendering. destruct Hquiet as [->|Hall]; [done|].
        by destruct v. }
      destruct (it <? N - 1); [|by eexists _, _]. cbn zeta. rewrite !Hq.
      destruct (convergence_detected _); by eexists _, _.
    + intros e s'. destruct (it <? N - 1); [|discriminate]. cbn zeta.
      destruct (rendering console_print v (critic_panel _)) as [[]|e1] eqn:H1.
      2:{ intros [= <- _]. by eapply Hr. }
      destruct (convergence_detected _); [|discriminate].
      destruct (rendering console_print v converged_line) as [[]|e2] eqn:H2;
        [discriminate|].
      intros [= <- _]. by eapply Hr.
  - intros q N v c w0 Hwf. split.
    + intros Hquiet. rewrite run_quiet_console by done. by apply run_total.
    + intros e s'. by apply run_raises_from_console.
Qed.

End AgentContracts.

Section PreviousPair.
Context {World : Type}.
Variable requests_post : string -> Payload -> Z -> M World Response.
Variable console_print : Renderable -> Res unit.

Lemma improvement_prompt_embeds q a f :
  prompt_embeds a f (improvement_prompt q a f).
Proof.
  split; apply str_in_spec; unfold improvement_prompt.
  - exists ("Original Query: " +:+ q +:+ nl +:+ nl
            +:+ "Previous Response:" +:+ nl).
    eexists. rewrite !app_assoc_str. reflexivity.
  - exists ("Original Query: " +:+ q +:+ nl +:+ nl
            +:+ "Previous Response:" +:+ nl +:+ a +:+ nl +:+ nl
            +:+ "Feedback from Critic:" +:+ nl).
    eexists. rewrite !app_assoc_str. reflexivity.
Qed.

(** C5 (amended): when a pass of the loop is followed by another, the
    context of the next generator call holds exactly the query, the answer
    and the feedback of the pass just ended (the pair stored in the last
    history entry), nothing older; and when that feedback is not the
    empty string the generator's prompt is the improvement prompt, which
    carries that answer and that feedback verbatim. *)
Theorem generator_context_is_previous_pair q N v it st c w st1 s1 :
  well_formed c → 0 <= it → (it <? N - 1) = true →
  loop_body requests_post console_print q N v it st (c, w)
  = (Ret (Continue, st1), s1) →
  let ans := ask requests_post (generator c) (generator_prompt q it st) w in
  let fb := ask requests_post (critic c) (critic_prompt q ans.1) ans.2 in
  let next := set_iteration st1 (it + 1 + 1) in
  last (history st1)
  = Some {| entry_iteration := it + 1;
            entry_generator_output := ans.1;
            entry_critic_feedback := Some fb.1 |}
  ∧ generator_context q (it + 1) next
    = Some (<["query" := q]>
           (<["previous_response" := ans.1]>
           (<["feedback" := fb.1]> ∅)))
  ∧ (fb.1 ≠ "" →
       build_prompt GENERATOR q (generator_context q (it + 1) next)
       = Ret (improvement_prompt q ans.1 fb.1)
       ∧ prompt_embeds ans.1 fb.1 (improvement_prompt q ans.1 fb.1)).
Proof.
  intros Hwf Hit Hlt Hbody ans fb next.
  rewrite <- (set_counts_self c) in Hbody.
  rewrite loop_body_verbose in Hbody by done. cbn zeta in Hbody.
  rewrite Hlt in Hbody. fold ans in Hbody. fold fb in Hbody.
  destruct (rendering console_print v (generator_panel _)) as [[]|e];
    [|discriminate].
  destruct (rendering console_print v (critic_panel _)) as [[]|e];
    [|discriminate].
  destruct (convergence_detected fb.1).
  { by destruct (rendering console_print v converged_line) as [[]|e]. }
  injection Hbody as <- <-.
  assert (generator_context q (it + 1) next
          = Some (<["query" := q]>
                 (<["previous_response" := ans.1]>
                 (<["feedback" := fb.1]> ∅)))) as Hctx.
  { unfold generator_context.
    assert ((it + 1 =? 0) = false) as -> by (apply Z.eqb_neq; lia).
    reflexivity. }
  split; [|split; [exact Hctx|]].
  - unfold store_history. rewrite Hlt.
    cbn [history history_append]. by rewrite last_snoc.
  - intros Hne. split; [|apply improvement_prompt_embeds].
    rewrite build_prompt_generator. unfold generator_prompt.
    assert ((it + 1 =? 0) = false) as -> by (apply Z.eqb_neq; lia).
    subst next. cbn [critic_feedback generator_output set_iteration
                     store_history history_append set_critic_feedback
                     set_generator_output].
    by destruct fb.1.
Qed.

End PreviousPair.

(** The orchestrator sees the client's strings only and raises nothing
    of its own.  A run returns whenever [verbose] is false or the console
    accepts the texts it is given, and an exception of a run is one the
    console raised in verbose mode.  Over a backend whose every request
    fails the same way (the error text not holding the convergence marker)
    every run of [N >= 1] iterations that returns has the error text as
    final response and as the answer of each of its [N] history entries,
    as the feedback of every entry but the last, and inside every prompt
    sent after the first.  And a backend that fails and a backend that
    answers with the very same strings as generated text (their states
    related by [R], which may also compare the prompts received) make the
    run end the same way, with the same counters and related final
    states. *)
Lemma backend_errors_flow_as_text {W1 W2 : Type}
    (post1 : string -> Payload -> Z -> M W1 Response)
    (post2 : string -> Payload -> Z -> M W2 Response)
    (console_print : Renderable -> Res unit)
    (R : W1 -> W2 -> Prop) q N v c w1 w2 :
  well_formed c →
  (renders_quietly console_print v →
     (∃ r s', run post1 console_print q N v (c, w1) = (Ret r, s'))
     ∧ (∃ r s', run (recorded post1) console_print q N v (c, (w1, []))
                = (Ret r, s')))
  ∧ (∀ e s', run post1 console_print q N v (c, w1) = (Raise e, s') →
       v = true ∧ ∃ x, console_print x = Raise e)
  ∧ (∀ outcome,
       failed outcome →
       (∀ url payload timeout u, (post1 url payload timeout u).1 = outcome) →
       convergence_detected (error_text outcome) = false → 1 <= N →
       ∀ r c' w1' log,
         run (recorded post1) console_print q N v (c, (w1, []))
         = (Ret r, (c', (w1', log))) →
         (λ request, p_prompt (req_json request)) <$> log
         = prompts_when_every_reply_is q (error_text outcome) (Z.to_nat N)
         ∧ res_final_response r = error_text outcome
         ∧ res_converged r = false ∧ res_iterations r = N
         ∧ res_history r
           = (λ j, {| entry_iteration := j;
                      entry_generator_output := error_text outcome;
                      entry_critic_feedback :=
                        if j <? N then Some (error_text outcome) else None |})
             <$> seqZ 1 N)
  ∧ ((∀ self prompt system model temperature u1 u2, R u1 u2 →
        (generate post1 self prompt system model temperature false u1).1
        = (generate post2 self prompt system model temperature false u2).1
        ∧ R (generate post1 self prompt system model temperature false u1).2
            (generate post2 self prompt system model temperature false u2).2) →
     R w1 w2 →
     ∃ res c' w1' w2',
       run post1 console_print q N v (c, w1) = (res, (c', w1'))
       ∧ run post2 console_print q N v (c, w2) = (res, (c', w2'))
       ∧ R w1' w2').
Proof.
  intros Hwf. split; [|split; [|split]].
  - intros Hquiet.
    split; (rewrite run_quiet_console by done; by apply run_total).
  - intros e s'. by apply run_raises_from_console.
  - intros outcome Hfailed Hall Hconv HN r c' w1' log Hrun.
    apply run_returns_silent in Hrun; [|done].
    destruct (run_failing post1 console_print outcome Hfailed Hall
                q N c w1 [] Hwf Hconv HN)
      as (r0 & c0 & w0 & es & Heq & Hprompts & Hrest).
    rewrite Heq in Hrun. injection Hrun as <- _ _ <-.
    by split.
  - intros Hsame HR. by apply (run_sim post1 post2 console_print R Hsame).
Qed.

(** ** The convergence test ignores letter case *)

Lemma lower_char_on_ascii c :
  (N_of_ascii (fold_case c) <? 128)%N = true → py_lower_char c = fold_case c.
Proof.
  destruct c as [b0 b1 b2 b3 b4 b5 b6 b7].
  destruct b0, b1, b2, b3, b4, b5, b6, b7; intros H;
    first [reflexivity | discriminate H].
Qed.

Lemma lower_of_fold mid :
  ∀ phrase, fold_cases mid = phrase → ascii_only phrase = true →
            lower mid = phrase.
Proof.
  induction mid as [|c mid IH]; intros phrase <-; [done|].
  cbn [fold_cases ascii_only lower]. intros [Hc Hs]%andb_true_iff.
  by rewrite lower_char_on_ascii, (IH _ eq_refl Hs).
Qed.

Lemma lower_append a b : lower (a +:+ b) = lower a +:+ lower b.
Proof.
  induction a as [|c a IH]; [done|].
  rewrite append_cons. cbn [lower]. by rewrite IH, append_cons.
Qed.

Lemma marker_found_in_any_case text :
  contains_ignoring_case CONVERGENCE_MARKER text →
  convergence_detected text = true.
Proof.
  intros (pre & mid & post & -> & Hmid).
  unfold convergence_detected. apply str_in_spec.
  exists (lower pre), (lower post). rewrite !lower_append.
  by rewrite (lower_of_fold mid CONVERGENCE_MARKER).
Qed.

(** ** Runs against the stub backends *)

(** What a run left by [break] reports, for every backend: the iteration
    reached, as many generator and critic calls, and a history that is
    one entry short of the iteration count. *)
Lemma converged_run_history_short {World : Type}
    (requests_post : string -> Payload -> Z -> M World Response)
    (console_print : Renderable -> Res unit)
    q N v c w r s' :
  well_formed c → 1 <= N →
  run requests_post console_print q N v (c, w) = (Ret r, s') →
  res_converged r = true →
  Z.of_nat (length (res_history r)) = res_iterations r - 1
  ∧ res_generator_calls r = call_count (generator c) + res_iterations r
  ∧ res_critic_calls r = call_count (critic c) + res_iterations r.
Proof.
  intros Hwf HN Hrun Hconv. apply run_returns_silent in Hrun; [|done].
  destruct (run_shape requests_post console_print q N c w Hwf HN)
    as (st' & g' & k' & w' & Heq & Hpost).
  rewrite Heq in Hrun. injection Hrun as <- <-.
  cbn [result_dict res_converged res_iterations res_history
       res_generator_calls res_critic_calls set_counts generator critic
       set_call_count call_count] in *.
  destruct Hpost as [((Hc & _) & _)|(j & Hj & (_ & Hi & _ & _ & _ & Hl) & -> & -> & _)].
  - congruence.
  - rewrite Hi. repeat split; lia || done.
Qed.

(** C1: the end-to-end example of the testable properties (query
    "What is X?", two iterations allowed, generator always "ANSWER",
    critic always "no significant improvements needed on first call").
    The run stops after iteration 1 with [converged = true] and one call
    of each agent, but its history is empty: the [break] comes before the
    entry of the converging iteration is stored. *)
Theorem converged_run_drops_last_entry :
  (run (stub_post "ANSWER" "no significant improvements needed on first call")
       stub_console "What is X?" 2 true (fresh_coordinator, [])).1
  = Ret {| res_final_response := "ANSWER";
           res_iterations := 1;
           res_converged := true;
           res_history := [];
           res_generator_calls := 1;
           res_critic_calls := 1 |}.
Proof. vm_compute. reflexivity. Qed.

(** The same in iteration 3 and in capitals: three iterations reported,
    two entries stored. *)
Example converged_run_third_iteration :
  (run scripted_post stub_console "What is X?" 5 true
       (fresh_coordinator,
        Ret <$> (ok_response <$>
          ["A1"; "needs work"; "A2"; "needs more work"; "A3";
           "NO SIGNIFICANT Improvements Needed."]))).1
  = Ret {| res_final_response := "A3";
           res_iterations := 3;
           res_converged := true;
           res_history :=
             [{| entry_iteration := 1; entry_generator_output := "A1";
                 entry_critic_feedback := Some "needs work" |};
              {| entry_iteration := 2; entry_generator_output := "A2";
                 entry_critic_feedback := Some "needs more work" |}];
           res_generator_calls := 3;
           res_critic_calls := 3 |}.
Proof. vm_compute. reflexivity. Qed.

(** C2, as worded, fails on a run that converges in iteration 2 of 3: the
    history holds the entry of iteration 1 only, with its feedback, so no
    entry lacks feedback and none belongs to the final iteration.  It also
    fails on a run with [max_iterations = 0]: no iteration runs, so the
    iteration counter never leaves 0. *)
Lemma data_model_invariant_fails_on_convergence :
  (∃ r s',
     run scripted_post stub_console "What is X?" 3 true
         (fresh_coordinator,
          Ret <$> (ok_response <$>
            ["A1"; "needs work"; "A2"; "no significant improvements needed"]))
     = (Ret r, s')
     ∧ res_iterations r = 2 ∧ res_converged r = true
     ∧ ¬ data_model_invariant r)
  ∧ (∃ r s',
       run (stub_post "ANSWER" "needs work") stub_console "What is X?" 0 true
           (fresh_coordinator, [])
       = (Ret r, s')
       ∧ res_iterations r = 0 ∧ res_history r = []
       ∧ ¬ data_model_invariant r).
Proof.
  split.
  - eexists _, _. split; [vm_compute; reflexivity|].
    split; [reflexivity|]. split; [reflexivity|].
    intros (_ & _ & _ & (e & He & _ & Hnone) & _).
    cbn [res_history] in He. apply list_elem_of_singleton in He. subst e.
    discriminate Hnone.
  - eexists _, _. split; [vm_compute; reflexivity|].
    split; [reflexivity|]. split; [reflexivity|].
    intros (Hone & _). cbn [res_iterations] in Hone. lia.
Qed.

(** C3: against a backend whose critic never gives the marker, with two
    iterations allowed, a first answer that holds the closing tag [/INST]
    makes the verbose run raise while rendering that answer, after one
    generator call and no critic call, where the claim has two generator
    calls, one critic call and a result; the silent run on the same input
    returns what the claim states. *)
Theorem run_without_marker_raises_when_verbose :
  let post := stub_post "done [/INST]" "needs work" in
  (∀ prompt w0,
     convergence_detected (ask post (critic fresh_coordinator) prompt w0).1
     = false)
  ∧ run post stub_console "What is X?" 2 true (fresh_coordinator, [])
    = (Raise (MarkupError
         "closing tag '[/INST]' at position 5 doesn't match any open tag"),
       (set_counts fresh_coordinator 1 0, [first_call_prompt "What is X?"]))
  ∧ (run post stub_console "What is X?" 2 false (fresh_coordinator, [])).1
    = Ret {| res_final_response := "done [/INST]";
             res_iterations := 2;
             res_converged := false;
             res_history :=
               [{| entry_iteration := 1;
                   entry_generator_output := "done [/INST]";
                   entry_critic_feedback := Some "needs work" |};
                {| entry_iteration := 2;
                   entry_generator_output := "done [/INST]";
                   entry_critic_feedback := None |}];
             res_generator_calls := 2;
             res_critic_calls := 1 |}.
Proof.
  intros post. split; [intros prompt w0|split]; vm_compute; reflexivity.
Qed.

(** C4: with one iteration allowed, a query that holds the closing tag
    [/INST] makes the verbose run raise while rendering its opening panel,
    before any call, where the claim has a result; the silent run on the
    same input returns what the claim states. *)
Theorem single_iteration_run_raises_when_verbose :
  let post := stub_post "ANSWER" "needs work" in
  run post stub_console "What [/INST] X?" 1 true (fresh_coordinator, [])
  = (Raise (MarkupError
       "closing tag '[/INST]' at position 66 doesn't match any open tag"),
     (fresh_coordinator, []))
  ∧ run post stub_console "What [/INST] X?" 1 false (fresh_coordinator, [])
    = (Ret {| res_final_response := "ANSWER";
              res_iterations := 1;
              res_converged := false;
              res_history :=
                [{| entry_iteration := 1;
                    entry_generator_output := "ANSWER";
                    entry_critic_feedback := None |}];
              res_generator_calls := 1;
              res_critic_calls := 0 |},
       (set_counts fresh_coordinator 1 0,
        [first_call_prompt "What [/INST] X?"])).
Proof. intros post. split; vm_compute; reflexivity. Qed.

(** C5, as worded, fails when the critic answers with empty text: the
    third request of the run, the generator's prompt of iteration 2, is
    the first-call prompt and does not carry the previous answer. *)
Lemma generator_prompt_can_omit_previous_pair :
  ¬ (∃ prompt,
       (run (stub_post "ANSWER" "") stub_console "What is X?" 2 true
            (fresh_coordinator, [])).2.2 !! 2%nat = Some prompt
       ∧ prompt_embeds "ANSWER" "" prompt).
Proof.
  intros (prompt & Hlog & Hanswer & _).
  vm_compute in Hlog. injection Hlog as <-.
  vm_compute in Hanswer. discriminate.
Qed.

(** C6: a critique that holds the closing tag [/INST] makes the verbose
    run raise while rendering it, after one call of each agent, and so
    does the error text of a failed request, after the generator's first
    call: no result is returned.  The silent run over the same failing
    backend returns a complete result in which the error text is the final
    response, the answer and the feedback stored in the history, and part
    of the critic's prompt and of the next generator prompt. *)
Theorem run_raises_on_rejected_markup :
  let failing := constant_post (Raise (RequestException "bad reply [/INST]")) in
  let E := "Error: bad reply [/INST]" in
  run (stub_post "ANSWER" "revise [/INST]") stub_console "What is X?" 2 true
      (fresh_coordinator, [])
  = (Raise (MarkupError
       "closing tag '[/INST]' at position 7 doesn't match any open tag"),
     (set_counts fresh_coordinator 1 1,
      [first_call_prompt "What is X?"; critic_prompt "What is X?" "ANSWER"]))
  ∧ run failing stub_console "What is X?" 2 true (fresh_coordinator, [])
    = (Raise (MarkupError
         "closing tag '[/INST]' at position 17 doesn't match any open tag"),
       (set_counts fresh_coordinator 1 0, [first_call_prompt "What is X?"]))
  ∧ run failing stub_console "What is X?" 2 false (fresh_coordinator, [])
    = (Ret {| res_final_response := E;
              res_iterations := 2;
              res_converged := false;
              res_history :=
                [{| entry_iteration := 1; entry_generator_output := E;
                    entry_critic_feedback := Some E |};
                 {| entry_iteration := 2; entry_generator_output := E;
                    entry_critic_feedback := None |}];
              res_generator_calls := 2;
              res_critic_calls := 1 |},
       (set_counts fresh_coordinator 2 1,
        [first_call_prompt "What is X?"; critic_prompt "What is X?" E;
         improvement_prompt "What is X?" E E])).
Proof. intros failing E. repeat split; vm_compute; reflexivity. Qed.

(** ** Instances of the theorems on the stub backends *)

Lemma run_state_invariant_witness :
  let post := stub_post "ANSWER" "needs work" in
  well_formed fresh_coordinator
  ∧ (∃ r s',
       run post stub_console "What is X?" 3 false (fresh_coordinator, [])
       = (Ret r, s'))
  ∧ ∃ r s',
      run post stub_console "What is X?" 3 true (fresh_coordinator, [])
      = (Ret r, s')
      ∧ res_converged r = false
      ∧ res_iterations r = 3
      ∧ numbered (res_history r)
      ∧ Z.of_nat (length (res_history r)) = 3
      ∧ ∃ h last, res_history r = h ++ [last]
          ∧ Forall feedback_present h
          ∧ entry_critic_feedback last = None.
Proof.
  intros post.
  assert (well_formed fresh_coordinator) as Hwf by (by split).
  split; [exact Hwf|]. split.
  - apply (run_state_invariant post stub_console "What is X?" 3 false
             fresh_coordinator [] Hwf).
    by left.
  - eexists _, _. split; [vm_compute; reflexivity|].
    split; [reflexivity|].
    edestruct (proj2 (run_state_invariant post stub_console "What is X?" 3 true
                        fresh_coordinator [] Hwf))
      as (_ & _ & Hn & Hfalse & _); [vm_compute; reflexivity|].
    destruct (Hfalse eq_refl) as (Hi & Hl & Hlast).
    split; [exact Hi|]. split; [exact Hn|]. split; [exact Hl|].
    apply Hlast. lia.
Defined.

Lemma run_without_marker_witness :
  let post := stub_post "ANSWER" "needs work" in
  well_formed fresh_coordinator ∧ 1 < 3
  ∧ (∀ prompt w0,
       convergence_detected
         (ask post (critic fresh_coordinator) prompt w0).1 = false)
  ∧ ∃ r c' w',
      run post stub_console "What is X?" 3 true (fresh_coordinator, [])
      = (Ret r, (c', w'))
      ∧ call_count (generator c') = call_count (generator fresh_coordinator) + 3
      ∧ call_count (critic c') = call_count (critic fresh_coordinator) + (3 - 1)
      ∧ res_generator_calls r = call_count (generator c')
      ∧ res_critic_calls r = call_count (critic c')
      ∧ res_converged r = false ∧ res_iterations r = 3
      ∧ Z.of_nat (length (res_history r)) = 3
      ∧ ∃ h last, res_history r = h ++ [last]
          ∧ Z.of_nat (length h) = 3 - 1
          ∧ Forall feedback_present h
          ∧ entry_critic_feedback last = None.
Proof.
  intros post.
  assert (well_formed fresh_coordinator) as Hwf by (by split).
  assert (∀ prompt w0,
            convergence_detected
              (ask post (critic fresh_coordinator) prompt w0).1 = false)
    as Hnever by (intros prompt w0; vm_compute; reflexivity).
  split; [exact Hwf|]. split; [lia|]. split; [exact Hnever|].
  eexists _, _, _. split; [vm_compute; reflexivity|].
  eapply (proj2 (run_without_marker post stub_console "What is X?" 3 true
                  fresh_coordinator [] Hwf ltac:(lia) Hnever)).
  vm_compute. reflexivity.
Defined.

Lemma generator_context_is_previous_pair_witness :
  let post := stub_post "ANSWER" "needs work" in
  let st := mkConversationState "What is X?" 3 in
  well_formed fresh_coordinator ∧ 0 <= 0 ∧ (0 <? 3 - 1) = true
  ∧ ∃ st1 s1,
      loop_body post stub_console "What is X?" 3 true 0 st
                (fresh_coordinator, [])
      = (Ret (Continue, st1), s1)
      ∧ last (history st1)
        = Some {| entry_iteration := 1; entry_generator_output := "ANSWER";
                  entry_critic_feedback := Some "needs work" |}
      ∧ generator_context "What is X?" 1 (set_iteration st1 2)
        = Some (<["query" := "What is X?"]>
               (<["previous_response" := "ANSWER"]>
               (<["feedback" := "needs work"]> ∅)))
      ∧ build_prompt GENERATOR "What is X?"
          (generator_context "What is X?" 1 (set_iteration st1 2))
        = Ret (improvement_prompt "What is X?" "ANSWER" "needs work")
      ∧ prompt_embeds "ANSWER" "needs work"
          (improvement_prompt "What is X?" "ANSWER" "needs work").
Proof.
  intros post st.
  split; [by split|]. split; [lia|]. split; [reflexivity|].
  eexists _, _. split; [vm_compute; reflexivity|].
  destruct (generator_context_is_previous_pair post stub_console
              "What is X?" 3 true 0 st fresh_coordinator [] _ _
              (conj eq_refl eq_refl) ltac:(lia) eq_refl eq_refl)
    as (Hlast & Hctx & Hprompt).
  split; [exact Hlast|]. split; [exact Hctx|].
  apply Hprompt. discriminate.
Defined.

Lemma backend_errors_flow_as_text_witness :
  let outcome := Ret (failure_response 500) in
  let failing := constant_post outcome in
  let answering := constant_post (Ret (ok_response "Error: HTTP 500")) in
  let E := "Error: HTTP 500" in
  well_formed fresh_coordinator
  ∧ failed outcome
  ∧ (∀ url payload timeout u, (failing url payload timeout u).1 = outcome)
  ∧ convergence_detected (error_text outcome) = false
  ∧ (∃ r c' w' log,
       run (recorded failing) stub_console "What is X?" 2 true
           (fresh_coordinator, ([], []))
       = (Ret r, (c', (w', log)))
       ∧ (λ request, p_prompt (req_json request)) <$> log
         = [first_call_prompt "What is X?";
            critic_prompt "What is X?" E;
            improvement_prompt "What is X?" E E]
       ∧ res_final_response r = E
       ∧ res_history r
         = [{| entry_iteration := 1; entry_generator_output := E;
               entry_critic_feedback := Some E |};
            {| entry_iteration := 2; entry_generator_output := E;
               entry_critic_feedback := None |}])
  ∧ (∀ self prompt system model temperature (w1 w2 : list string), w1 = w2 →
       (generate failing self prompt system model temperature false w1).1
       = (generate answering self prompt system model temperature false w2).1
       ∧ (generate failing self prompt system model temperature false w1).2
         = (generate answering self prompt system model temperature false w2).2)
  ∧ ∃ res c' w1' w2',
      run failing stub_console "What is X?" 3 true (fresh_coordinator, [])
      = (res, (c', w1'))
      ∧ run answering stub_console "What is X?" 3 true (fresh_coordinator, [])
        = (res, (c', w2'))
      ∧ w1' = w2'.
Proof.
  intros outcome failing answering E.
  assert (well_formed fresh_coordinator) as Hwf by (by split).
  assert (failed outcome) as Hfailed by (cbn; lia).
  assert (∀ url payload timeout u, (failing url payload timeout u).1 = outcome)
    as Hall by reflexivity.
  assert (convergence_detected (error_text outcome) = false) as Hconv
    by (vm_compute; reflexivity).
  assert (∀ self prompt system model temperature (w1 w2 : list string),
            w1 = w2 →
            (generate failing self prompt system model temperature false w1).1
            = (generate answering self prompt system model temperature false w2).1
            ∧ (generate failing self prompt system model temperature false w1).2
              = (generate answering self prompt system model temperature false w2).2)
    as Hsame
    by (intros self prompt system model temperature w1 w2 ->;
        split; vm_compute; reflexivity).
  pose proof (backend_errors_flow_as_text failing answering stub_console eq
                "What is X?" 2 true fresh_coordinator [] [] Hwf)
    as (_ & _ & Hflow & _).
  pose proof (backend_errors_flow_as_text failing answering stub_console eq
                "What is X?" 3 true fresh_coordinator [] [] Hwf)
    as (_ & _ & _ & Hsim).
  split; [exact Hwf|]. split; [exact Hfailed|]. split; [exact Hall|].
  split; [exact Hconv|]. split; [|split; [exact Hsame|]].
  - eexists _, _, _, _. split; [vm_compute; reflexivity|].
    edestruct (Hflow outcome Hfailed Hall Hconv ltac:(lia))
      as (Hprompts & Hfinal & _ & _ & Hhistory); [vm_compute; reflexivity|].
    split; [exact Hprompts|]. split; [exact Hfinal|]. exact Hhistory.
  - exact (Hsim Hsame eq_refl).
Defined.

Lemma generate_returns_text_or_error_text_witness :
  let args := fun post : string -> Payload -> Z -> M (list string) Response =>
    generate post default_client "What is X?" GENERATOR_SYSTEM_PROMPT
             default_model default_temperature false [] in
  (args (constant_post (Ret (ok_response "  ANSWER  ")))).1 = "ANSWER"
  ∧ is_trim_of "ANSWER" "  ANSWER  "
  ∧ (args (constant_post
             (Ret {| status_code := 200; response_json := Ret (JObj ∅) |}))).1
    = ""
  ∧ (args (constant_post (Ret (failure_response 503)))).1 = "Error: HTTP 503"
  ∧ str_in "503" (args (constant_post (Ret (failure_response 503)))).1 = true
  ∧ (args (constant_post (Raise (RequestException "Connection refused")))).1
    = "Error: Connection refused".
Proof.
  intros args.
  pose proof (fun post : string -> Payload -> Z -> M (list string) Response =>
    generate_returns_text_or_error_text post default_client "What is X?"
      GENERATOR_SYSTEM_PROMPT default_model default_temperature false [])
    as H.
  destruct (H (constant_post (Ret (ok_response "  ANSWER  "))))
    as (Hok & _ & _).
  destruct (Hok _ _ _ eq_refl eq_refl eq_refl) as (Htext & _).
  destruct (Htext "  ANSWER  " eq_refl) as (Heq & Htrim).
  destruct (H (constant_post
                 (Ret {| status_code := 200; response_json := Ret (JObj ∅) |})))
    as (Hmissing & _ & _).
  destruct (Hmissing _ _ _ eq_refl eq_refl eq_refl) as (_ & Hnone).
  destruct (H (constant_post (Ret (failure_response 503)))) as (_ & Hfail & _).
  destruct (Hfail _ _ eq_refl ltac:(discriminate)) as (Hcode & Hin).
  destruct (H (constant_post (Raise (RequestException "Connection refused"))))
    as (_ & _ & Hraise).
  split; [exact (f_equal fst Heq)|]. split; [exact Htrim|].
  split; [exact (f_equal fst (Hnone eq_refl))|].
  split; [exact (f_equal fst Hcode)|]. split; [exact Hin|].
  exact (f_equal fst (Hraise _ _ eq_refl)).
Defined.


Lemma critic_needs_query_context_witness :
  let post := stub_post "ANSWER" "needs work" in
  let a := critic fresh_coordinator in
  role (config a) = CRITIC
  ∧ process post "ANSWER" None (a, [])
    = (Raise (TypeError "'NoneType' object is not subscriptable"), (bump a, []))
  ∧ process post "ANSWER" (Some ∅) (a, [])
    = (Raise (KeyError "query"), (bump a, []))
  ∧ (∃ text w',
       process post "ANSWER" (Some (critic_context "What is X?")) (a, [])
       = (Ret text, (bump a, w')))
  ∧ ∃ r s',
      run post stub_console "What is X?" 3 false (fresh_coordinator, [])
      = (Ret r, s').
Proof.
  intros post a.
  destruct (critic_needs_query_context post stub_console a "ANSWER" [] eq_refl)
    as (Hnone & Hmissing & Hquery & _ & Hrun).
  split; [reflexivity|]. split; [exact Hnone|].
  split; [exact (Hmissing ∅ eq_refl)|].
  split; [exact (proj2 (Hquery "What is X?"))|].
  apply (Hrun "What is X?" 3 false fresh_coordinator []); [by split|by left].
Defined.

Lemma call_counters_are_lifetime_witness :
  let post := stub_post "ANSWER" "needs work" in
  ∃ r1 c1 w1 r2 c2 w2,
    run post stub_console "What is X?" 2 true (fresh_coordinator, [])
    = (Ret r1, (c1, w1))
    ∧ run post stub_console "What is Y?" 3 true (c1, w1) = (Ret r2, (c2, w2))
    ∧ res_generator_calls r1 = 2 ∧ res_critic_calls r1 = 1
    ∧ res_generator_calls r2 = 5 ∧ res_critic_calls r2 = 3
    ∧ ∃ r2' c2',
        run post stub_console "What is Y?" 3 true (fresh_coordinator, w1)
        = (Ret r2', (c2', w2))
        ∧ res_generator_calls r2' = 3 ∧ res_critic_calls r2' = 2
        ∧ res_generator_calls r2
          = res_generator_calls r1 + res_generator_calls r2'
        ∧ res_critic_calls r2 = res_critic_calls r1 + res_critic_calls r2'
        ∧ res_history r2 = res_history r2'.
Proof.
  intros post.
  eexists _, _, _, _, _, _.
  split; [vm_compute; reflexivity|]. split; [vm_compute; reflexivity|].
  split; [reflexivity|]. split; [reflexivity|].
  split; [reflexivity|]. split; [reflexivity|].
  edestruct (call_counters_are_lifetime post stub_console default_client
               "What is X?" 2 true "What is Y?" 3 true [])
    as (_ & _ & _ & _ & _ & r2' & c2' & Hfresh & Hg & Hk & _ & _ & _ & Hh);
    [vm_compute; reflexivity|vm_compute; reflexivity|].
  exists r2', c2'. split; [exact Hfresh|].
  split; [change (5 = 2 + res_generator_calls r2') in Hg; lia|].
  split; [change (3 = 1 + res_critic_calls r2') in Hk; lia|].
  split; [exact Hg|]. split; [exact Hk|]. exact Hh.
Defined.

(** * Properties of the health checks, the request log and the examples *)

(** ** The model listing *)

Lemma any_model_named_step model_name d rest :
  (d !! "name" = None ∨ ∃ s, d !! "name" = Some (JStr s)) →
  ∃ s, default (JStr "") (d !! "name") = JStr s
       ∧ any_model_named model_name (JObj d :: rest)
         = if str_in model_name s then Ret true
           else any_model_named model_name rest.
Proof.
  intros [Hd|(s & Hd)]; cbn [any_model_named json_get res_bind]; rewrite Hd.
  - by exists "".
  - by exists s.
Qed.

Lemma names_model_cons_inv model_name d s :
  default (JStr "") (d !! "name") = JStr s →
  names_model model_name (JObj d) ↔ str_in model_name s = true.
Proof.
  intros Hs. rewrite str_in_spec. split.
  - intros (d' & s' & pre & post & Hd & Hs' & Heq).
    injection Hd as <-. rewrite Hs in Hs'. injection Hs' as ->.
    by exists pre, post.
  - intros (pre & post & ->).
    by exists d, (pre +:+ model_name +:+ post), pre, post.
Qed.

Lemma any_model_named_listing model_name l :
  Forall model_entry l →
  ∃ b, any_model_named model_name l = Ret b
       ∧ (b = true ↔ Exists (names_model model_name) l).
Proof.
  induction 1 as [|x l (d & -> & Hd) _ (b & IH & Hb)].
  - exists false. split; [done|]. split; [done|]. by intros ?%Exists_nil.
  - destruct (any_model_named_step model_name d l Hd) as (s & Hs & ->).
    destruct (str_in model_name s) eqn:Hin.
    + exists true. split; [done|]. split; [|done]. intros _.
      apply Exists_cons_hd. by apply (names_model_cons_inv _ _ s).
    + exists b. split; [done|]. rewrite Hb. split.
      * by apply Exists_cons_tl.
      * intros [Hx|Hl]%Exists_cons; [|done].
        apply (names_model_cons_inv _ _ s) in Hx; [congruence|done].
Qed.

Section HealthCheckProperties.
Context {World : Type}.
Variable requests_get : string -> option Z -> M World Response.

Lemma check_model_availability_listing self model_name w resp w' o models :
  requests_get (base_url self +:+ "/api/tags") None w = (Ret resp, w') →
  status_code resp = 200 → response_json resp = Ret (JObj o) →
  o !! "models" = Some models →
  check_model_availability requests_get self model_name w
  = (match res_bind (py_iter models) (any_model_named model_name) with
     | Ret b => b
     | Raise _ => false
     end, w').
Proof.
  intros Hget Hst Hjs Hm.
  unfold check_model_availability, try_except, bind, lift_res.
  rewrite Hget, Hst. cbn [Z.eqb Pos.eqb]. rewrite Hjs.
  cbn [json_get]. rewrite Hm. cbn [default from_option id].
  destruct (py_iter models) as [items|e]; [|done].
  cbn [res_bind]. by destruct (any_model_named model_name items).
Qed.

(** On a listing of well-formed entries the model check answers True
    exactly when some entry's name contains [model_name]. *)
Theorem model_available_iff_some_name_contains
    self model_name w resp w' o l :
  requests_get (base_url self +:+ "/api/tags") None w = (Ret resp, w') →
  status_code resp = 200 → response_json resp = Ret (JObj o) →
  o !! "models" = Some (JArr l) → Forall model_entry l →
  ∃ b, check_model_availability requests_get self model_name w = (b, w')
       ∧ (b = true ↔ Exists (names_model model_name) l).
Proof.
  intros Hget Hst Hjs Hm Hl.
  rewrite (check_model_availability_listing _ _ _ _ _ _ _ Hget Hst Hjs Hm).
  cbn [py_iter res_bind].
  destruct (any_model_named_listing model_name l Hl) as (b & -> & Hb).
  by exists b.
Qed.

Lemma any_model_named_skip model_name pre l :
  Forall model_entry pre → ¬ Exists (names_model model_name) pre →
  any_model_named model_name (pre ++ l) = any_model_named model_name l.
Proof.
  induction 1 as [|x pre (d & -> & Hd) _ IH]; [done|]. intros Hno.
  rewrite <- app_comm_cons.
  destruct (any_model_named_step model_name d (pre ++ l) Hd) as (s & Hs & ->).
  destruct (str_in model_name s) eqn:Hin.
  - exfalso. apply Hno, Exists_cons_hd.
    by apply (names_model_cons_inv _ _ s).
  - apply IH. intros Hex. by apply Hno, Exists_cons_tl.
Qed.

(** The listing is scanned up to the first entry that decides: after
    well-formed entries that do not name the model, an entry that names it
    gives True whatever follows, and an entry that is not an object gives
    False whatever follows. *)
Theorem model_listing_scanned_to_first_match
    self model_name w resp w' o pre x rest :
  requests_get (base_url self +:+ "/api/tags") None w = (Ret resp, w') →
  status_code resp = 200 → response_json resp = Ret (JObj o) →
  o !! "models" = Some (JArr (pre ++ x :: rest)) →
  Forall model_entry pre → ¬ Exists (names_model model_name) pre →
  (names_model model_name x →
     check_model_availability requests_get self model_name w = (true, w'))
  ∧ ((∀ d, x ≠ JObj d) →
     check_model_availability requests_get self model_name w = (false, w')).
Proof.
  intros Hget Hst Hjs Hm Hpre Hno.
  rewrite (check_model_availability_listing _ _ _ _ _ _ _ Hget Hst Hjs Hm).
  cbn [py_iter res_bind]. rewrite (any_model_named_skip _ _ _ Hpre Hno).
  split.
  - intros Hx. pose proof Hx as (d & s & p1 & p2 & -> & Hs & _).
    assert (d !! "name" = None ∨ ∃ t, d !! "name" = Some (JStr t)) as Hd.
    { destruct (d !! "name") as [v|]; [right|by left].
      cbn in Hs. subst v. by exists s. }
    destruct (any_model_named_step model_name d rest Hd) as (t & Ht & ->).
    apply (names_model_cons_inv _ _ t) in Hx; [|done]. by rewrite Hx.
  - intros Hx. destruct x; try done. by destruct (Hx o0).
Qed.

Lemma any_model_named_strings model_name (l : list string) :
  any_model_named model_name (JStr <$> l) ≠ Ret true.
Proof. by destruct l. Qed.

Lemma chars_strings s : ∃ l : list string, chars s = JStr <$> l.
Proof.
  induction s as [|c s (l & IH)]; [by exists []|].
  exists (String c "" :: l). cbn [chars]. by rewrite IH.
Qed.

(** The model check makes exactly one GET and is fail-soft: it answers
    True only on a 200 response whose JSON object holds a non-empty list
    under ['models']; a raising request, another status, a body that is
    not JSON or not of that shape all give False. *)
Theorem model_check_true_only_on_listing self model_name w :
  let sent := requests_get (base_url self +:+ "/api/tags") None w in
  let got := check_model_availability requests_get self model_name w in
  got.2 = sent.2
  ∧ (got.1 = true →
       ∃ resp o x l,
         sent.1 = Ret resp ∧ status_code resp = 200
         ∧ response_json resp = Ret (JObj o)
         ∧ o !! "models" = Some (JArr (x :: l))).
Proof.
  intros sent got. subst sent got.
  unfold check_model_availability, try_except, bind, lift_res.
  destruct (requests_get _ None w) as [[resp|e] w']; [|by split].
  destruct (status_code resp =? 200) eqn:Hst; [|by split].
  apply Z.eqb_eq in Hst.
  destruct (response_json resp) as [v|e] eqn:Hjs; [|by split].
  destruct v as [| | | | |l|o]; try by split.
  cbn [json_get]. destruct (o !! "models") as [models|] eqn:Hm;
    cbn [default from_option id]; [|by split].
  destruct models as [| | | |s|l|o']; try by split.
  - destruct (chars_strings s) as (l & Hl). cbn [py_iter]. rewrite Hl.
    pose proof (any_model_named_strings model_name l) as Hne.
    destruct (any_model_named model_name (JStr <$> l)) as [[]|]; by split.
  - cbn [py_iter].
    destruct (any_model_named model_name l) as [b|] eqn:Hany; [|by split].
    split; [done|]. cbn [fst]. intros ->.
    destruct l as [|x l]; [discriminate|]. by exists resp, o, x, l.
  - cbn [py_iter].
    pose proof (any_model_named_strings model_name (map_to_list o').*1) as Hne.
    destruct (any_model_named model_name _) as [[]|]; by split.
Qed.

Variable subprocess_run : list string -> World -> SubprocessOutcome * World.

Lemma check_ollama_status_spec self w :
  let sent := requests_get (base_url self +:+ "/api/tags") (Some 5) w in
  check_ollama_status requests_get self w
  = (match sent.1 with
     | Ret resp => status_code resp =? 200
     | Raise _ => false
     end, sent.2).
Proof.
  unfold check_ollama_status, try_except, bind, ret.
  by destruct (requests_get _ (Some 5) w) as [[resp|e] w'].
Qed.

(** [check_prerequisites] answers True only when the status probe got a
    200 response; it lets an exception through only when the probe
    succeeded, the model was not listed and the pull raised something
    other than [CalledProcessError]; and when the probe fails or the model
    is listed, the answer is the same whatever the subprocess would do. *)
Theorem prerequisites_depend_on_pull_only_when_model_missing w :
  let probe := check_ollama_status requests_get default_client w in
  let listed :=
    check_model_availability requests_get default_client "granite3-moe:1b"
                             probe.2 in
  let pull := subprocess_run ["ollama"; "pull"; "granite3-moe:1b"] listed.2 in
  let got := check_prerequisites requests_get subprocess_run w in
  (got.1 = Returned true →
     ∃ resp, (requests_get "http://localhost:11434/api/tags" (Some 5) w).1
             = Ret resp ∧ status_code resp = 200)
  ∧ (∀ msg, got.1 = Propagated msg →
       probe.1 = true ∧ listed.1 = false ∧ pull.1 = OtherError msg)
  ∧ (probe.1 = false →
       ∀ other, check_prerequisites requests_get other w
                = (Returned false, probe.2))
  ∧ (probe.1 = true → listed.1 = true →
       ∀ other, check_prerequisites requests_get other w
                = (Returned true, listed.2))
  ∧ (probe.1 = true → listed.1 = false →
       got = (match pull.1 with
              | Completed => Returned true
              | CalledProcessError _ => Returned false
              | OtherError msg => Propagated msg
              end, pull.2)).
Proof.
  intros probe listed pull got. subst got pull listed.
  unfold check_prerequisites. fold probe.
  pose proof (check_ollama_status_spec default_client w) as Hprobe.
  fold probe in Hprobe. cbn zeta in Hprobe.
  change (base_url default_client +:+ "/api/tags")
    with "http://localhost:11434/api/tags" in Hprobe.
  destruct probe as [running w1] eqn:Ep. cbn [fst snd] in *.
  destruct running; cbn [negb].
  - assert (∃ resp,
              (requests_get "http://localhost:11434/api/tags" (Some 5) w).1
              = Ret resp ∧ status_code resp = 200) as Hresp.
    { injection Hprobe as Hr _.
      destruct (requests_get _ (Some 5) w).1 as [resp|]; [|done].
      exists resp. split; [done|]. by apply Z.eqb_eq. }
    destruct (check_model_availability _ _ _ w1) as [available w2] eqn:El.
    cbn [fst snd]. destruct available; cbn [negb].
    + repeat split; try done.
    + destruct (subprocess_run _ w2) as [[] w3] eqn:Es; cbn [fst snd];
        repeat split; try done. congruence.
  - repeat split; try done.
Qed.

End HealthCheckProperties.

Section RunAccounting.
Context {World : Type}.
Variable requests_post : string -> Payload -> Z -> M World Response.
Variable console_print : Renderable -> Res unit.

(** With [max_iterations <= 0] the loop body never runs: no agent is
    called and the backend state is untouched.  When [verbose] is false or
    the console accepts the opening panel, the result is the initial state
    (empty answer, iteration 0, empty history); when the console raises on
    the opening panel in verbose mode, the run raises that exception. *)
Theorem run_without_iterations q N v c w :
  N <= 0 →
  (v = false ∨ console_print (opening_panel q N) = Ret tt →
     run requests_post console_print q N v (c, w)
     = (Ret {| res_final_response := "";
               res_iterations := 0;
               res_converged := false;
               res_history := [];
               res_generator_calls := call_count (generator c);
               res_critic_calls := call_count (critic c) |}, (c, w)))
  ∧ (∀ e, v = true → console_print (opening_panel q N) = Raise e →
       run requests_post console_print q N v (c, w) = (Raise e, (c, w))).
Proof.
  intros HN. rewrite run_nonpositive_verbose by done. unfold rendering.
  split.
  - intros [->|Hok]; [done|]. destruct v; [|done]. by rewrite Hok.
  - intros e -> Hbad. by rewrite Hbad.
Qed.

(** Call accounting of every run that returns, as every run does when
    [verbose] is false or the console accepts the texts it is given: the
    agents keep their configuration, the generator is called once per
    iteration reached, and the critic once per iteration reached when the
    run converged and once less (never less than zero) when it did not. *)
Theorem run_call_accounting q N v c w :
  well_formed c →
  (renders_quietly console_print v →
     ∃ r s', run requests_post console_print q N v (c, w) = (Ret r, s'))
  ∧ ∀ r c' w',
      run requests_post console_print q N v (c, w) = (Ret r, (c', w')) →
      c' = set_counts c (res_generator_calls r) (res_critic_calls r)
      ∧ 0 <= res_iterations r <= Z.max 0 N
      ∧ res_generator_calls r = call_count (generator c) + res_iterations r
      ∧ res_critic_calls r
        = call_count (critic c)
          + (if res_converged r then res_iterations r
             else Z.max 0 (res_iterations r - 1)).
Proof.
  intros Hwf. split.
  { intros Hquiet. rewrite run_quiet_console by done. by apply run_total. }
  intros r c' w' Hrun. apply run_returns_silent in Hrun; [|done].
  destruct (Z.le_gt_cases N 0) as [HN|HN].
  - rewrite run_nonpositive in Hrun by done. injection Hrun as <- <- _.
    cbn [result_dict mkConversationState iteration converged
         res_generator_calls res_critic_calls res_iterations res_converged].
    split; [by rewrite set_counts_self|]. lia.
  - destruct (run_shape requests_post console_print q N c w Hwf ltac:(lia))
      as (st' & g' & k' & w0 & Heq & Hpost).
    rewrite Heq in Hrun. injection Hrun as <- <- _.
    cbn [result_dict res_generator_calls res_critic_calls res_iterations
         res_converged set_counts generator critic set_call_count call_count].
    split; [done|].
    destruct Hpost as [((Hc & Hi & _) & -> & ->)
                      |(j & Hj & (Hc & Hi & _) & -> & -> & _)];
      rewrite Hc, Hi; lia.
Qed.

Lemma for_loop_quiet q N c (Hwf : well_formed c) its :
  ∀ st g k w st' s',
    Forall quiet (history st) →
    for_loop requests_post console_print q N false its st (set_counts c g k, w) = (Ret st', s') →
    Forall quiet (history st').
Proof.
  induction its as [|it rest IH]; intros st g k w st' s' Hq Hrun.
  - cbn in Hrun. by injection Hrun as <- _.
  - rewrite for_loop_cons in Hrun by done. cbn zeta in Hrun.
    set (ans := ask requests_post (generator c) (generator_prompt q it st) w) in *.
    set (fb := ask requests_post (critic c) (critic_prompt q ans.1) ans.2) in *.
    destruct (it <? N - 1) eqn:Hlt;
      [destruct (convergence_detected fb.1) eqn:Hconv|].
    + by injection Hrun as <- _.
    + eapply IH; [|exact Hrun]. unfold store_history. rewrite Hlt.
      cbn [history history_append set_critic_feedback set_generator_output
           set_iteration critic_feedback].
      apply Forall_app. split; [done|]. apply Forall_singleton.
      intros f [= <-]. exact Hconv.
    + eapply IH; [|exact Hrun]. unfold store_history. rewrite Hlt.
      cbn [history history_append set_generator_output set_iteration].
      apply Forall_app. split; [done|]. by apply Forall_singleton.
Qed.

(** No feedback stored in the history of a run sets off the convergence
    test: the feedback that ends a run by convergence is not recorded. *)
Theorem stored_feedback_never_converges q N v c w r s' :
  well_formed c →
  run requests_post console_print q N v (c, w) = (Ret r, s') →
  ∀ e f, e ∈ res_history r → entry_critic_feedback e = Some f →
         convergence_detected f = false.
Proof.
  intros Hwf Hrun e f He Hf. apply run_returns_silent in Hrun; [|done].
  rewrite run_silent in Hrun.
  rewrite <- (set_counts_self c) in Hrun.
  destruct (for_loop _ _ _ _ _ _ _ _) as [[st'|] [c' w']] eqn:Hloop; [|done].
  injection Hrun as <- _.
  pose proof (for_loop_quiet q N c Hwf _ (mkConversationState q N) _ _ _ _ _
                (Forall_nil_2 _) Hloop) as Hq.
  rewrite Forall_forall in Hq. by apply (Hq e He f).
Qed.

(** When a run of at least one iteration does not converge, its final
    response is the generator output of the last history entry, which
    carries the iteration number the result reports. *)
Theorem exhausted_run_returns_last_entry q N v c w r s' :
  well_formed c → 1 <= N →
  run requests_post console_print q N v (c, w) = (Ret r, s') →
  res_converged r = false →
  ∃ h last,
    res_history r = h ++ [last]
    ∧ entry_generator_output last = res_final_response r
    ∧ entry_iteration last = res_iterations r
    ∧ entry_critic_feedback last = None.
Proof.
  intros Hwf HN Hrun Hconv. apply run_returns_silent in Hrun; [|done].
  destruct (run_shape requests_post console_print q N c w Hwf HN)
    as (st' & g' & k' & w' & Heq & Hpost).
  rewrite Heq in Hrun. injection Hrun as <- _.
  cbn [result_dict res_converged res_history res_final_response
       res_iterations] in *.
  destruct Hpost as [((Hc & Hi & Hn & h & last & Hh & Hl & Hf & Hlast & Hout) & _)
                    |(j & _ & (Hc & _) & _)]; [|congruence].
  exists h, last. split; [done|]. split; [done|]. split; [|done].
  unfold numbered in Hn. rewrite Hh, fmap_app, length_app in Hn.
  cbn [length fmap list_fmap] in Hn.
  replace (length h + 1)%nat with (S (length h)) in Hn by lia.
  rewrite seqZ_S in Hn. apply app_inj_tail in Hn as [_ Hn]. lia.
Qed.

End RunAccounting.

Section RequestLog.
Context {World : Type}.
Variable requests_post : string -> Payload -> Z -> M World Response.
Variable console_print : Renderable -> Res unit.

(** One call of [generate] sends exactly one request, to the client's
    endpoint, with the payload built from the arguments and a timeout of
    120 seconds, whatever the outcome: there is no retry. *)
Theorem generate_sends_one_request
    self prompt system model temperature stream w log :
  (generate (recorded requests_post) self prompt system model temperature
            stream (w, log)).1
  = (generate requests_post self prompt system model temperature stream w).1
  ∧ (generate (recorded requests_post) self prompt system model temperature
              stream (w, log)).2
    = ((generate requests_post self prompt system model temperature stream w).2,
       log ++ [{| req_url := api_endpoint self;
                  req_json := {| p_model := model; p_prompt := prompt;
                                 p_system := system; p_stream := stream;
                                 p_temperature := temperature |};
                  req_timeout := 120 |}]).
Proof. by rewrite generate_recorded. Qed.

(** Recording is transparent and counts the calls: a run over the
    recording backend ends as it ends over the backend itself, with the
    same result or the same exception of the console, and it has sent
    exactly as many requests as the two counters went up, which for a run
    that returns is what the reported counts went up. *)
Theorem run_sends_one_request_per_call q N v c w log :
  well_formed c →
  ∃ res c' w' es,
    run requests_post console_print q N v (c, w) = (res, (c', w'))
    ∧ run (recorded requests_post) console_print q N v (c, (w, log))
      = (res, (c', (w', log ++ es)))
    ∧ Z.of_nat (length es)
      = (call_count (generator c') - call_count (generator c))
        + (call_count (critic c') - call_count (critic c))
    ∧ ∀ r, res = Ret r →
           Z.of_nat (length es)
           = (res_generator_calls r - call_count (generator c))
             + (res_critic_calls r - call_count (critic c)).
Proof.
  intros Hwf.
  destruct (run_recorded_twin requests_post console_print q N v c w log Hwf)
    as (res & c' & w' & es & H1 & H2 & Hlen & _ & Hcalls).
  exists res, c', w', es. split; [exact H1|]. split; [exact H2|].
  split; [exact Hlen|]. intros r Hr.
  destruct (Hcalls r Hr) as [-> ->]. exact Hlen.
Qed.

(** The requests of a run come strictly in turn, generator first, then
    critic, then generator, ...; each is sent by the agent whose turn it
    is, with that agent's endpoint, model, system prompt and temperature,
    never streaming, with a timeout of 120 seconds, and with a prompt that
    carries the user's query verbatim. *)
Theorem run_requests_take_turns q N v c w log r c' w' log' :
  well_formed c →
  run (recorded requests_post) console_print q N v (c, (w, log))
  = (Ret r, (c', (w', log'))) →
  ∃ es,
    log' = log ++ es
    ∧ run_requests c q es
    ∧ Forall (λ r, (generator_request c q r ∨ critic_request c q r)
                   ∧ str_in q (p_prompt (req_json r)) = true
                   ∧ p_stream (req_json r) = false ∧ req_timeout r = 120) es.
Proof.
  intros Hwf Hrun. apply run_returns_silent in Hrun; [|done].
  destruct (run_recorded requests_post console_print q N c w log Hwf)
    as (r0 & c0 & w0 & es & _ & H2 & Hes & _).
  rewrite H2 in Hrun. injection Hrun as _ _ _ <-.
  exists es. split; [done|]. split; [done|]. by apply run_requests_each.
Qed.

End RequestLog.

(** ** The convergence test *)

Lemma fold_char_on_ascii c :
  (N_of_ascii (py_lower_char c) <? 128)%N = true →
  fold_case c = py_lower_char c.
Proof.
  destruct c as [b0 b1 b2 b3 b4 b5 b6 b7].
  destruct b0, b1, b2, b3, b4, b5, b6, b7; intros H;
    first [reflexivity | discriminate H].
Qed.

Lemma fold_of_lower mid :
  ∀ phrase, lower mid = phrase → ascii_only phrase = true →
            fold_cases mid = phrase.
Proof.
  induction mid as [|c mid IH]; intros phrase <-; [done|].
  cbn [fold_cases ascii_only lower]. intros [Hc Hs]%andb_true_iff.
  by rewrite fold_char_on_ascii, (IH _ eq_refl Hs).
Qed.

Lemma lower_append_inv a :
  ∀ t b, lower t = a +:+ b →
         ∃ t1 t2, t = t1 +:+ t2 ∧ lower t1 = a ∧ lower t2 = b.
Proof.
  induction a as [|x a IH]; intros t b H.
  - by exists "", t.
  - destruct t as [|c t]; [discriminate|].
    rewrite append_cons in H. cbn [lower] in H. injection H as Hc Ht.
    destruct (IH t b Ht) as (t1 & t2 & -> & H1 & H2).
    exists (String c t1), t2. rewrite append_cons. cbn [lower].
    by rewrite Hc, H1.
Qed.

(** On code points below 256 the convergence test of line 347 fires
    exactly when the feedback contains the marker phrase up to the case of
    its ASCII letters, whatever surrounds it. *)
Theorem convergence_detected_iff text :
  convergence_detected text = true
  ↔ contains_ignoring_case CONVERGENCE_MARKER text.
Proof.
  split; [|apply marker_found_in_any_case].
  unfold convergence_detected. intros (pre & post & H)%str_in_spec.
  apply lower_append_inv in H as (t1 & rest & -> & H1 & H).
  apply lower_append_inv in H as (mid & t3 & -> & Hmid & H3).
  exists t1, mid, t3. split; [done|].
  by rewrite (fold_of_lower mid CONVERGENCE_MARKER).
Qed.

Section ClientEdges.
Context {World : Type}.
Variable requests_post : string -> Payload -> Z -> M World Response.

(** A 200 response that is not what the client expects also ends as an
    error string: the decoder's message when the body is not JSON, and
    the [AttributeError] message when the body is not an object or its
    ['response'] field is not text (a [null] field, say). *)
Theorem generate_malformed_success_body
    self prompt system model temperature stream w resp w' :
  requests_post (api_endpoint self)
    {| p_model := model; p_prompt := prompt; p_system := system;
       p_stream := stream; p_temperature := temperature |} 120 w
  = (Ret resp, w') →
  status_code resp = 200 →
  let got := generate requests_post self prompt system model temperature
                      stream w in
  (∀ e, response_json resp = Raise e → got = ("Error: " +:+ exn_str e, w'))
  ∧ (∀ v, response_json resp = Ret v → (∀ o, v ≠ JObj o) →
       got = ("Error: '" +:+ py_type_name v
              +:+ "' object has no attribute 'get'", w'))
  ∧ (∀ o v, response_json resp = Ret (JObj o) → o !! "response" = Some v →
       (∀ s, v ≠ JStr s) →
       got = ("Error: '" +:+ py_type_name v
              +:+ "' object has no attribute 'strip'", w')).
Proof.
  intros Hsent Hst got. subst got.
  rewrite (generate_response _ _ _ _ _ _ _ _ _ _ Hsent), Hst.
  cbn [Z.eqb Pos.eqb]. split; [|split].
  - intros e ->. done.
  - intros v -> Hv. destruct v; try done. by destruct (Hv o).
  - intros o v -> Hv Hs. cbn [res_bind json_get]. rewrite Hv.
    cbn [default from_option id]. destruct v; try done. by destruct (Hs s).
Qed.

(** A generator call whose context holds non-empty feedback takes the
    query and the previous answer from the context: without ['query'] or
    ['previous_response'] it raises a [KeyError] after counting the call
    and before any request; with both, its prompt is the improvement
    prompt built from the context alone, so the [input_text] argument
    plays no part. *)
Theorem generator_with_feedback_reads_context
    a input (d : gmap string string) f w :
  role (config a) = GENERATOR → d !! "feedback" = Some f → f ≠ "" →
  (d !! "query" = None →
     process requests_post input (Some d) (a, w)
     = (Raise (KeyError "query"), (bump a, w)))
  ∧ (∀ q, d !! "query" = Some q → d !! "previous_response" = None →
       process requests_post input (Some d) (a, w)
       = (Raise (KeyError "previous_response"), (bump a, w)))
  ∧ (∀ q p, d !! "query" = Some q → d !! "previous_response" = Some p →
       process requests_post input (Some d) (a, w)
       = (Ret (ask requests_post a (improvement_prompt q p f) w).1,
          (bump a, (ask requests_post a (improvement_prompt q p f) w).2))
       ∧ ∀ other, process requests_post other (Some d) (a, w)
                  = process requests_post input (Some d) (a, w)).
Proof.
  intros Hrole Hf Hne.
  assert (has_feedback (Some d) = true) as Hhas.
  { unfold has_feedback. rewrite Hf. by destruct f. }
  split; [|split].
  - intros Hq. apply process_raise. rewrite Hrole.
    unfold build_prompt. rewrite Hhas. cbn. by rewrite Hq.
  - intros q Hq Hp. apply process_raise. rewrite Hrole.
    unfold build_prompt. rewrite Hhas. cbn. by rewrite Hq, Hp.
  - intros q p Hq Hp.
    assert (∀ x, build_prompt GENERATOR x (Some d)
                 = Ret (improvement_prompt q p f)) as Hb.
    { intros x. unfold build_prompt. rewrite Hhas. cbn.
      by rewrite Hq, Hp, Hf. }
    split.
    + apply process_ok. rewrite Hrole. apply Hb.
    + intros other.
      rewrite !(process_ok _ _ _ _ (improvement_prompt q p f));
        [done|by rewrite Hrole|by rewrite Hrole].
Qed.

End ClientEdges.

(** ** The examples *)

Lemma str_take_split n : ∀ s, ∃ rest, s = str_take n s +:+ rest.
Proof.
  induction n as [|n IH]; intros s; [by exists s|].
  destruct s as [|c s]; [by exists ""|].
  destruct (IH s) as (rest & E). exists rest.
  cbn [str_take]. rewrite append_cons. by rewrite <- E.
Qed.

Lemma str_take_length n :
  ∀ s, String.length (str_take n s) = Nat.min n (String.length s).
Proof.
  induction n as [|n IH]; intros s; [done|].
  destruct s as [|c s]; [done|]. cbn [str_take String.length]. by rewrite IH.
Qed.

Lemma append_length (a b : string) :
  String.length (a +:+ b) = (String.length a + String.length b)%nat.
Proof.
  induction a as [|c a IH]; [done|].
  rewrite append_cons. cbn [String.length]. by rewrite IH.
Qed.

(** The preview of the batch table never exceeds 103 characters: a
    response of at most 100 characters is shown as it is, a longer one as
    its first 100 characters followed by three dots. *)
Theorem preview_is_bounded response :
  (String.length (preview response) <= 103)%nat
  ∧ ((String.length response <= 100)%nat → preview response = response)
  ∧ ((100 < String.length response)%nat →
       String.length (preview response) = 103%nat
       ∧ ∃ kept rest, response = kept +:+ rest
                      ∧ String.length kept = 100%nat
                      ∧ preview response = kept +:+ "...").
Proof.
  unfold preview.
  destruct (100 <? String.length response)%nat eqn:Hlen.
  - apply Nat.ltb_lt in Hlen.
    assert (String.length (str_take 100 response) = 100%nat) as Htake
      by (rewrite str_take_length; lia).
    assert (String.length (str_take 100 response +:+ "...") = 103%nat) as H103
      by (rewrite append_length, Htake; reflexivity).
    split; [lia|]. split; [lia|]. intros _. split; [done|].
    destruct (str_take_split 100 response) as (rest & E).
    by exists (str_take 100 response), rest.
  - apply Nat.ltb_ge in Hlen. split; [lia|]. split; [done|]. lia.
Qed.

Section ExampleProperties.
Context {World : Type}.
Variable requests_post : string -> Payload -> Z -> M World Response.
Variable console_print : Renderable -> Res unit.

Lemma run_two_iterations q c g k w :
  well_formed c →
  ∃ r g' w',
    run requests_post console_print q 2 false (set_counts c g k, w)
    = (Ret r, (set_counts c g' (k + 1), w'))
    ∧ (res_iterations r = 1 ∨ res_iterations r = 2)
    ∧ g' = g + res_iterations r.
Proof.
  intros Hwf.
  destruct (run_shape requests_post console_print q 2 (set_counts c g k) w
              ltac:(done) ltac:(done))
    as (st' & g' & k' & w' & Heq & Hpost).
  cbn [set_counts generator critic set_call_count call_count] in Hpost.
  exists (result_dict st' (set_counts (set_counts c g k) g' k')), g', w'.
  cbn [result_dict res_iterations].
  destruct Hpost as [((_ & Hi & _) & -> & ->)|(j & Hj & (_ & Hi & _) & -> & -> & _)].
  - split; [exact Heq|]. split; [by right|]. by rewrite Hi.
  - assert (j = 1) as -> by lia.
    split; [exact Heq|]. split; [by left|]. by rewrite Hi.
Qed.

Lemma batch_loop_spec c (Hwf : well_formed c) queries :
  ∀ results g k w,
    ∃ new g' w',
      batch_loop requests_post console_print queries results
                 (set_counts c g k, w)
      = (Ret (results ++ new),
         (set_counts c g' (k + Z.of_nat (length queries)), w'))
      ∧ batch_query <$> new = queries
      ∧ Forall (λ e, batch_iterations e = 1 ∨ batch_iterations e = 2) new
      ∧ g' = g + foldr Z.add 0 (batch_iterations <$> new).
Proof.
  induction queries as [|query rest IH]; intros results g k w.
  - exists [], g, w. cbn [batch_loop ret length].
    rewrite app_nil_r, !Z.add_0_r. by repeat split.
  - destruct (run_two_iterations query c g k w Hwf)
      as (r & g1 & w1 & Hrun & Hit & ->).
    set (entry := {| batch_query := query;
                     batch_response := res_final_response r;
                     batch_iterations := res_iterations r |}).
    destruct (IH (results ++ [entry]) (g + res_iterations r) (k + 1) w1)
      as (new & g' & w' & Hloop & Hq & Hall & ->).
    exists (entry :: new), (g + res_iterations r
                            + foldr Z.add 0 (batch_iterations <$> new)), w'.
    split.
    + cbn [batch_loop]. unfold bind. rewrite Hrun. fold entry. rewrite Hloop.
      rewrite <- app_assoc. cbn [app length].
      by replace (k + 1 + Z.of_nat (length rest))
        with (k + Z.of_nat (S (length rest))) by lia.
    + split; [cbn; by rewrite Hq|]. split; [by constructor|].
      cbn [fmap list_fmap foldr batch_iterations entry]. lia.
Qed.

(** The batch loop answers every query, in order, with a run of one or
    two iterations, and never raises; on the shared coordinator the critic
    is called exactly once per query and the generator once per iteration
    reported. *)
Theorem batch_loop_accounting c (Hwf : well_formed c) queries :
  ∀ results g k w,
    ∃ new g' w',
      batch_loop requests_post console_print queries results
                 (set_counts c g k, w)
      = (Ret (results ++ new),
         (set_counts c g' (k + Z.of_nat (length queries)), w'))
      ∧ batch_query <$> new = queries
      ∧ Forall (λ e, batch_iterations e = 1 ∨ batch_iterations e = 2) new
      ∧ g' = g + foldr Z.add 0 (batch_iterations <$> new).
Proof. apply batch_loop_spec, Hwf. Qed.

(** In the creative-task example every request of the run carries the
    temperatures set just before it: 0.9 with the generator's system
    prompt, 0.5 with the critic's, never the default 0.7, whether the run
    returns or raises while rendering; it returns when the console
    accepts every text. *)
Theorem example_3_uses_the_set_temperatures w log :
  ∃ res c' w' es,
    example_3_creative_task (recorded requests_post) console_print (w, log)
    = (res, (c', (w', log ++ es)))
    ∧ Forall (λ r, (p_system (req_json r) = GENERATOR_SYSTEM_PROMPT
                    ∧ p_temperature (req_json r) = 9 # 10)
                   ∨ (p_system (req_json r) = CRITIC_SYSTEM_PROMPT
                      ∧ p_temperature (req_json r) = 5 # 10)) es
    ∧ ((∀ x, console_print x = Ret tt) → ∃ r, res = Ret r).
Proof.
  unfold example_3_creative_task.
  match goal with
  | |- context [run _ _ ?q 3 true (?c, _)] =>
      assert (well_formed c) as Hwf by (by split);
      destruct (run_recorded_twin requests_post console_print q 3 true c w log
                  Hwf)
        as (res & c' & w' & es & H1 & Hrun & _ & Hes & _);
      exists res, c', w', es; split; [exact Hrun|]
  end.
  split.
  - eapply Forall_impl; [exact Hes|]. cbv beta.
    intros x [Hg|Hc].
    + left. destruct Hg as [->|(a & f & ->)]; by split.
    + right. destruct Hc as (a & ->). by split.
  - intros Hall.
    match type of H1 with
    | run _ _ ?q 3 true (?c, _) = _ =>
        destruct (run_total requests_post console_print q 3 c w Hwf)
          as (r & s' & Hsilent);
        rewrite run_quiet_console in H1 by (done || by right)
    end.
    rewrite Hsilent in H1. injection H1 as <- _. by exists r.
Qed.

End ExampleProperties.

(** ** Instances on the stub endpoints *)

Lemma model_available_iff_some_name_contains_witness :
  let names := ["llama3:8b"; "granite3-moe:1b-instruct-q4"] in
  let l := (fun n => JObj (<["name" := JStr n]> ∅)) <$> names in
  let get := constant_get (Ret (listing_response names)) in
  Forall model_entry l
  ∧ ∃ b, check_model_availability get default_client "granite3-moe:1b" tt
         = (b, tt)
         ∧ (b = true ↔ Exists (names_model "granite3-moe:1b") l).
Proof.
  intros names l get.
  assert (Forall model_entry l) as Hl.
  { repeat constructor; eexists; (split; [reflexivity|]);
      right; eexists; reflexivity. }
  split; [exact Hl|].
  apply (model_available_iff_some_name_contains get default_client
           "granite3-moe:1b" tt (listing_response names) tt
           (<["models" := JArr l]> ∅) l);
    [reflexivity|reflexivity|reflexivity|reflexivity|exact Hl].
Defined.

Lemma model_listing_scanned_to_first_match_witness :
  let pre := [JObj (<["name" := JStr "llama3:8b"]> ∅)] in
  let rest := [JObj (<["name" := JStr "granite3-moe:1b"]> ∅)] in
  let o : gmap string json := <["models" := JArr (pre ++ JInt 5 :: rest)]> ∅ in
  let get := constant_get
               (Ret {| status_code := 200; response_json := Ret (JObj o) |}) in
  Forall model_entry pre
  ∧ ¬ Exists (names_model "granite3-moe:1b") pre
  ∧ check_model_availability get default_client "granite3-moe:1b" tt
    = (false, tt).
Proof.
  intros pre rest o get.
  assert (Forall model_entry pre) as Hpre.
  { repeat constructor; eexists; (split; [reflexivity|]);
      right; eexists; reflexivity. }
  assert (¬ Exists (names_model "granite3-moe:1b") pre) as Hno.
  { intros [H|H]%Exists_cons; [|by apply Exists_nil in H].
    apply (names_model_cons_inv _ _ "llama3:8b") in H; [|reflexivity].
    vm_compute in H. discriminate H. }
  split; [exact Hpre|]. split; [exact Hno|].
  apply (model_listing_scanned_to_first_match get default_client
           "granite3-moe:1b" tt
           {| status_code := 200; response_json := Ret (JObj o) |} tt o
           pre (JInt 5) rest);
    [reflexivity|reflexivity|reflexivity|reflexivity|exact Hpre|exact Hno
    |discriminate].
Defined.

Lemma run_without_iterations_witness :
  let post := stub_post "ANSWER" "needs work" in
  0 <= 0
  ∧ run post stub_console "What is X?" 0 true (fresh_coordinator, [])
    = (Ret {| res_final_response := "";
              res_iterations := 0;
              res_converged := false;
              res_history := [];
              res_generator_calls := 0;
              res_critic_calls := 0 |}, (fresh_coordinator, []))
  ∧ run post stub_console "What [/INST] X?" 0 true (fresh_coordinator, [])
    = (Raise (MarkupError
         "closing tag '[/INST]' at position 66 doesn't match any open tag"),
       (fresh_coordinator, [])).
Proof.
  intros post. split; [lia|]. split.
  - apply (run_without_iterations post stub_console "What is X?" 0 true
             fresh_coordinator []); [lia|]. right. reflexivity.
  - apply (run_without_iterations post stub_console "What [/INST] X?" 0 true
             fresh_coordinator []); [lia|reflexivity|reflexivity].
Defined.

Lemma run_call_accounting_witness :
  let post := stub_post "ANSWER" "needs work" in
  well_formed fresh_coordinator
  ∧ ∃ r c' w',
      run post stub_console "What is X?" 3 true (fresh_coordinator, [])
      = (Ret r, (c', w'))
      ∧ c' = set_counts fresh_coordinator (res_generator_calls r)
                        (res_critic_calls r)
      ∧ 0 <= res_iterations r <= Z.max 0 3
      ∧ res_generator_calls r
        = call_count (generator fresh_coordinator) + res_iterations r
      ∧ res_critic_calls r
        = call_count (critic fresh_coordinator)
          + (if res_converged r then res_iterations r
             else Z.max 0 (res_iterations r - 1)).
Proof.
  intros post.
  assert (well_formed fresh_coordinator) as Hwf by (by split).
  split; [exact Hwf|].
  eexists _, _, _. split; [vm_compute; reflexivity|].
  eapply (proj2 (run_call_accounting post stub_console "What is X?" 3 true
                   fresh_coordinator [] Hwf)).
  vm_compute. reflexivity.
Defined.

Lemma stored_feedback_never_converges_witness :
  let script :=
    Ret <$> (ok_response <$>
      ["A1"; "needs work"; "A2"; "no significant improvements needed"]) in
  well_formed fresh_coordinator
  ∧ ∃ r s',
      run scripted_post stub_console "What is X?" 3 true
          (fresh_coordinator, script)
      = (Ret r, s')
      ∧ ∀ e f, e ∈ res_history r → entry_critic_feedback e = Some f →
               convergence_detected f = false.
Proof.
  intros script. split; [by split|].
  eexists _, _. split; [vm_compute; reflexivity|].
  eapply (stored_feedback_never_converges scripted_post stub_console
            "What is X?" 3 true fresh_coordinator script);
    [by split|vm_compute; reflexivity].
Defined.

Lemma exhausted_run_returns_last_entry_witness :
  well_formed fresh_coordinator ∧ 1 <= 2
  ∧ ∃ r s',
      run (stub_post "ANSWER" "needs work") stub_console "What is X?" 2 true
          (fresh_coordinator, []) = (Ret r, s')
      ∧ res_converged r = false
      ∧ ∃ h last,
          res_history r = h ++ [last]
          ∧ entry_generator_output last = res_final_response r
          ∧ entry_iteration last = res_iterations r
          ∧ entry_critic_feedback last = None.
Proof.
  split; [by split|]. split; [lia|].
  eexists _, _. split; [vm_compute; reflexivity|]. split; [reflexivity|].
  eapply (exhausted_run_returns_last_entry (stub_post "ANSWER" "needs work")
            stub_console "What is X?" 2 true fresh_coordinator []);
    [by split|lia|vm_compute; reflexivity|reflexivity].
Defined.

Lemma run_sends_one_request_per_call_witness :
  let post := stub_post "done [/INST]" "needs work" in
  well_formed fresh_coordinator
  ∧ ∃ res c' w' es,
      run post stub_console "What is X?" 2 true (fresh_coordinator, [])
      = (res, (c', w'))
      ∧ run (recorded post) stub_console "What is X?" 2 true
            (fresh_coordinator, ([], []))
        = (res, (c', (w', [] ++ es)))
      ∧ Z.of_nat (length es)
        = (call_count (generator c') - call_count (generator fresh_coordinator))
          + (call_count (critic c') - call_count (critic fresh_coordinator))
      ∧ ∀ r, res = Ret r →
             Z.of_nat (length es)
             = (res_generator_calls r
                - call_count (generator fresh_coordinator))
               + (res_critic_calls r - call_count (critic fresh_coordinator)).
Proof.
  intros post. split; [by split|].
  apply (run_sends_one_request_per_call post stub_console "What is X?" 2 true
           fresh_coordinator [] []). by split.
Defined.

Lemma run_requests_take_turns_witness :
  let c := fresh_coordinator in
  let q := "What is X?" in
  well_formed c
  ∧ ∃ r c' w' log',
      run (recorded (stub_post "ANSWER" "needs work")) stub_console q 2 true
          (c, ([], []))
      = (Ret r, (c', (w', log')))
      ∧ ∃ es,
          log' = [] ++ es
          ∧ run_requests c q es
          ∧ Forall (λ r, (generator_request c q r ∨ critic_request c q r)
                         ∧ str_in q (p_prompt (req_json r)) = true
                         ∧ p_stream (req_json r) = false
                         ∧ req_timeout r = 120) es.
Proof.
  intros c q. split; [by split|].
  eexists _, _, _, _. split; [vm_compute; reflexivity|].
  eapply (run_requests_take_turns (stub_post "ANSWER" "needs work")
            stub_console q 2 true c [] []);
    [by split|vm_compute; reflexivity].
Defined.

Lemma generate_malformed_success_body_witness :
  let resp := {| status_code := 200;
                 response_json := Ret (JObj (<["response" := JNull]> ∅)) |} in
  status_code resp = 200
  ∧ generate (constant_post (Ret resp)) default_client "What is X?"
             GENERATOR_SYSTEM_PROMPT default_model default_temperature false []
    = ("Error: 'NoneType' object has no attribute 'strip'", ["What is X?"]).
Proof.
  intros resp. split; [reflexivity|].
  destruct (generate_malformed_success_body (constant_post (Ret resp))
              default_client "What is X?" GENERATOR_SYSTEM_PROMPT
              default_model default_temperature false [] resp ["What is X?"]
              eq_refl eq_refl) as (_ & _ & Hfield).
  apply (Hfield (<["response" := JNull]> ∅) JNull);
    [reflexivity|reflexivity|discriminate].
Defined.

Lemma generator_with_feedback_reads_context_witness :
  let a := generator fresh_coordinator in
  let d : gmap string string := <["feedback" := "needs work"]> ∅ in
  role (config a) = GENERATOR ∧ d !! "feedback" = Some "needs work"
  ∧ "needs work" ≠ ""
  ∧ process (stub_post "ANSWER" "needs work") "What is X?" (Some d) (a, [])
    = (Raise (KeyError "query"), (bump a, [])).
Proof.
  intros a d. split; [reflexivity|]. split; [reflexivity|].
  split; [discriminate|].
  destruct (generator_with_feedback_reads_context
              (stub_post "ANSWER" "needs work") a "What is X?" d "needs work"
              [] eq_refl eq_refl ltac:(discriminate)) as (Hquery & _).
  apply Hquery. reflexivity.
Defined.

Lemma batch_loop_accounting_witness :
  well_formed fresh_coordinator
  ∧ ∃ new g' w',
      batch_loop (stub_post "ANSWER" "needs work") stub_console
                 ["What is Docker?"; "Explain Kubernetes."] []
                 (set_counts fresh_coordinator 0 0, [])
      = (Ret ([] ++ new),
         (set_counts fresh_coordinator g' (0 + Z.of_nat 2), w'))
      ∧ batch_query <$> new = ["What is Docker?"; "Explain Kubernetes."]
      ∧ Forall (λ e, batch_iterations e = 1 ∨ batch_iterations e = 2) new
      ∧ g' = 0 + foldr Z.add 0 (batch_iterations <$> new).
Proof.
  split; [by split|].
  apply (batch_loop_accounting (stub_post "ANSWER" "needs work") stub_console
           fresh_coordinator ltac:(by split)
           ["What is Docker?"; "Explain Kubernetes."] [] 0 0 []).
Defined.
